(** * goharvest: the OAI-PMH harvesting loop of [oai/oai.go]

    A shallow embedding of the request serialisation, the resumption-token
    detection, the request execution and the recursive harvest of
    [oai/oai.go], together with its three consumption strategies (page
    callback, per-item callback, channel fan-out).

    Conventions.
    - A Go struct is a record; the field [F] of struct [T] is [T_F], because
      Go reuses field names across structs and names fields after types.
      [Set] and [Record] are spelt [Set_] and [Record_].
    - A method [T.m] is [T_m].
    - A [*Response] is an [option Response]; [None] is the nil pointer.
    - The outside world is a record: the state of the remote endpoint and
      the trace of the observable events so far.  Everything the code does
      to the outside (HTTP GET, callback invocation, channel send) appends
      one event to that trace.
    - A Go panic is a completion code; the world at the moment of the panic
      is kept, since effects that happened before a panic stay. *)

From Stdlib Require Import String Ascii List Bool Arith PeanoNat Lia ZArith.
From Stdlib.Strings Require Import Byte.
Import ListNotations.
Local Open Scope string_scope.
Local Open Scope list_scope.

(** ** Wire model (oai.go, lines 11-104) *)

Record Header := {
  Header_Status     : string;
  Header_Identifier : string;
  Header_DateStamp  : string;
  Header_SetSpec    : list string
}.

Record Metadata := { Metadata_Body : list byte }.

Record About := { About_Body : list byte }.

Record Record_ := {
  Record_Header   : Header;
  Record_Metadata : Metadata;
  Record_About    : About
}.

Record ListIdentifiers := {
  ListIdentifiers_Headers         : list Header;
  ListIdentifiers_ResumptionToken : string
}.

Record ListRecords := {
  ListRecords_Records         : list Record_;
  ListRecords_ResumptionToken : string
}.

Record GetRecord := { GetRecord_Record : Record_ }.

Record RequestNode := {
  RequestNode_Verb           : string;
  RequestNode_Set            : string;
  RequestNode_MetadataPrefix : string
}.

Record OAIError := {
  OAIError_Code    : string;
  OAIError_Message : string
}.

Record MetadataFormat := {
  MetadataFormat_MetadataPrefix    : string;
  MetadataFormat_Schema            : string;
  MetadataFormat_MetadataNamespace : string
}.

Record ListMetadataFormats := {
  ListMetadataFormats_MetadataFormat : list MetadataFormat
}.

Record Description := { Description_Body : list byte }.

Record Set_ := {
  Set_SetSpec        : string;
  Set_SetName        : string;
  Set_SetDescription : Description
}.

Record ListSets := { ListSets_Set : list Set_ }.

Record Identify := {
  Identify_RepositoryName    : string;
  Identify_BaseURL           : string;
  Identify_ProtocolVersion   : string;
  Identify_AdminEmail        : list string;
  Identify_EarliestDatestamp : string;
  Identify_DeletedRecord     : string;
  Identify_Granularity       : string;
  Identify_Description       : list Description
}.

Record Response := {
  Response_ResponseDate        : string;
  Response_Request             : RequestNode;
  Response_Error               : OAIError;
  Response_Identify            : Identify;
  Response_ListMetadataFormats : ListMetadataFormats;
  Response_ListSets            : ListSets;
  Response_GetRecord           : GetRecord;
  Response_ListIdentifiers     : ListIdentifiers;
  Response_ListRecords         : ListRecords
}.

(** Go zero values of the structs above. *)

Definition zero_Header : Header :=
  {| Header_Status := ""; Header_Identifier := "";
     Header_DateStamp := ""; Header_SetSpec := [] |}.

Definition zero_Record : Record_ :=
  {| Record_Header := zero_Header;
     Record_Metadata := {| Metadata_Body := [] |};
     Record_About := {| About_Body := [] |} |}.

Definition zero_Identify : Identify :=
  {| Identify_RepositoryName := ""; Identify_BaseURL := "";
     Identify_ProtocolVersion := ""; Identify_AdminEmail := [];
     Identify_EarliestDatestamp := ""; Identify_DeletedRecord := "";
     Identify_Granularity := ""; Identify_Description := [] |}.

Definition zero_Response : Response :=
  {| Response_ResponseDate := "";
     Response_Request :=
       {| RequestNode_Verb := ""; RequestNode_Set := "";
          RequestNode_MetadataPrefix := "" |};
     Response_Error := {| OAIError_Code := ""; OAIError_Message := "" |};
     Response_Identify := zero_Identify;
     Response_ListMetadataFormats :=
       {| ListMetadataFormats_MetadataFormat := [] |};
     Response_ListSets := {| ListSets_Set := [] |};
     Response_GetRecord := {| GetRecord_Record := zero_Record |};
     Response_ListIdentifiers :=
       {| ListIdentifiers_Headers := [];
          ListIdentifiers_ResumptionToken := "" |};
     Response_ListRecords :=
       {| ListRecords_Records := [];
          ListRecords_ResumptionToken := "" |} |}.

(** ** Request (oai.go, lines 144-146) *)

Record Request := {
  Request_BaseUrl         : string;
  Request_Set             : string;
  Request_MetadataPrefix  : string;
  Request_Verb            : string;
  Request_Identifier      : string;
  Request_ResumptionToken : string;
  Request_From            : string;
  Request_Until           : string
}.

(** Field assignments [req.F = v] through the pointer receiver. *)

Definition assign_Set (v : string) (req : Request) : Request :=
  {| Request_BaseUrl := Request_BaseUrl req;
     Request_Set := v;
     Request_MetadataPrefix := Request_MetadataPrefix req;
     Request_Verb := Request_Verb req;
     Request_Identifier := Request_Identifier req;
     Request_ResumptionToken := Request_ResumptionToken req;
     Request_From := Request_From req;
     Request_Until := Request_Until req |}.

Definition assign_MetadataPrefix (v : string) (req : Request) : Request :=
  {| Request_BaseUrl := Request_BaseUrl req;
     Request_Set := Request_Set req;
     Request_MetadataPrefix := v;
     Request_Verb := Request_Verb req;
     Request_Identifier := Request_Identifier req;
     Request_ResumptionToken := Request_ResumptionToken req;
     Request_From := Request_From req;
     Request_Until := Request_Until req |}.

Definition assign_Verb (v : string) (req : Request) : Request :=
  {| Request_BaseUrl := Request_BaseUrl req;
     Request_Set := Request_Set req;
     Request_MetadataPrefix := Request_MetadataPrefix req;
     Request_Verb := v;
     Request_Identifier := Request_Identifier req;
     Request_ResumptionToken := Request_ResumptionToken req;
     Request_From := Request_From req;
     Request_Until := Request_Until req |}.

Definition assign_ResumptionToken (v : string) (req : Request) : Request :=
  {| Request_BaseUrl := Request_BaseUrl req;
     Request_Set := Request_Set req;
     Request_MetadataPrefix := Request_MetadataPrefix req;
     Request_Verb := Request_Verb req;
     Request_Identifier := Request_Identifier req;
     Request_ResumptionToken := v;
     Request_From := Request_From req;
     Request_Until := Request_Until req |}.

Definition assign_From (v : string) (req : Request) : Request :=
  {| Request_BaseUrl := Request_BaseUrl req;
     Request_Set := Request_Set req;
     Request_MetadataPrefix := Request_MetadataPrefix req;
     Request_Verb := Request_Verb req;
     Request_Identifier := Request_Identifier req;
     Request_ResumptionToken := Request_ResumptionToken req;
     Request_From := v;
     Request_Until := Request_Until req |}.

(** ** Request.String (oai.go, lines 149-167) *)

(** Go's [strings.Join]: nothing for no element, the element itself for
    one, and otherwise the elements with [sep] between neighbours. *)
Fixpoint strings_Join (elems : list string) (sep : string) : string :=
  match elems with
  | [] => ""
  | e :: rest =>
      match rest with
      | [] => e
      | _ :: _ => (e ++ sep ++ strings_Join rest sep)%string
      end
  end.

(** The closure [add] of [Request.String]; the captured slice [qs] is
    passed and returned. *)
Definition add (qs : list string) (name value : string) : list string :=
  if String.eqb value "" then qs else qs ++ [(name ++ "=" ++ value)%string].

(** The slice [qs] once the seven [add] calls have run. *)
Definition Request_qs (req : Request) : list string :=
  let qs := [] in
  let qs := add qs "verb" (Request_Verb req) in
  let qs := add qs "set" (Request_Set req) in
  let qs := add qs "metadataPrefix" (Request_MetadataPrefix req) in
  let qs := add qs "resumptionToken" (Request_ResumptionToken req) in
  let qs := add qs "identifier" (Request_Identifier req) in
  let qs := add qs "from" (Request_From req) in
  let qs := add qs "until" (Request_Until req) in
  qs.

Definition Request_String (req : Request) : string :=
  strings_Join [Request_BaseUrl req; "?"; strings_Join (Request_qs req) "&"] "".

(** ** Response.ResumptionToken (oai.go, lines 192-213) *)

Definition Response_ResumptionToken (resp : option Response) : bool * string :=
  let hasResumptionToken := false in
  let resumptionToken := "" in
  match resp with
  | None => (hasResumptionToken, resumptionToken)
  | Some resp =>
      let resumptionToken :=
        ListIdentifiers_ResumptionToken (Response_ListIdentifiers resp) in
      let resumptionToken :=
        if String.eqb resumptionToken ""
        then ListRecords_ResumptionToken (Response_ListRecords resp)
        else resumptionToken in
      let hasResumptionToken :=
        if negb (String.eqb resumptionToken "") then true
        else hasResumptionToken in
      (hasResumptionToken, resumptionToken)
  end.

(** ** Completions, events and the world *)

(** The errors the code panics with. *)
Inductive error :=
| ErrGet              (* http.Get returned an error *)
| ErrReadAll          (* ioutil.ReadAll returned an error *)
| ErrUnmarshal        (* xml.Unmarshal returned an error *)
| ErrIndexOutOfRange  (* run-time panic of a slice index *)
| ErrCallback.        (* a panic raised by caller-supplied code *)

(** How a call ends: it returns, it panics, or the bounded model ran out
    of recursion depth before the unbounded Go recursion ended. *)
Inductive completion :=
| Returned
| Panicked (e : error)
| OutOfFuel.

(** A channel is known by its identity. *)
Definition chan := nat.

(** The operations Go offers on a channel the sender holds, and the other
    observable events of a harvest. *)
Inductive event :=
| EvGet (target : string)                (* http.Get(target) *)
| EvPage (resp : Response)               (* a page handed to a page observer *)
| EvHeader (h : Header)                  (* a header handed to an item observer *)
| EvRecord (r : Record_)                 (* a record handed to an item observer *)
| EvSend (ch : chan) (v : option Header) (* ch <- v; None is nil *)
| EvClose (ch : chan).                   (* close(ch) *)

(** What [http.Get] hands back when it does not fail: the status code and
    the body, whose reading by [ioutil.ReadAll] may fail ([None]). *)
Record HttpResponse := {
  HttpResponse_StatusCode : Z;
  HttpResponse_Body       : option (list byte)
}.

Section Harvesting.

(** The remote endpoint: a state and what it answers to a GET on a target.
    [None] is a transport failure. *)
Variable Remote : Type.
Variable serve : string -> Remote -> option HttpResponse * Remote.

(** [xml.Unmarshal] into a [*Response]; [None] is a decoding error.  On
    success the decoder has allocated the response, so it is never nil. *)
Variable xml_Unmarshal : list byte -> option Response.

Record World := {
  remote : Remote;
  trace  : list event
}.

Definition emit (e : event) (w : World) : World :=
  {| remote := remote w; trace := trace w ++ [e] |}.

Definition http_Get (target : string) (w : World) : option HttpResponse * World :=
  let (resp, r) := serve target (remote w) in
  (resp, {| remote := r; trace := trace w ++ [EvGet target] |}).

(** ** Request.Perform (oai.go, lines 117-141) *)

Definition Request_Perform (req : Request) (w : World)
  : (Response + error) * World :=
  match http_Get (Request_String req) w with
  | (None, w) => (inr ErrGet, w)
  | (Some resp, w) =>
      match HttpResponse_Body resp with
      | None => (inr ErrReadAll, w)
      | Some body =>
          match xml_Unmarshal body with
          | None => (inr ErrUnmarshal, w)
          | Some oaiResponse => (inl oaiResponse, w)
          end
      end
  end.

(** ** Request.Harvest (oai.go, lines 171-189) *)

(** A callback acts on the world and returns or panics.  It is given no
    way to write to what it is handed: the callbacks that the three
    strategies below pass to [Harvest] only read the response, and an item
    callback is handed a pointer to the range variable, not into the
    response.  A caller-supplied page callback that writes to the response
    is outside this type. *)
Definition callback_on (A : Type) : Type := A -> World -> completion * World.

(** Lines 183-186: the four assignments before the recursive call. *)
Definition continuation_request (resumptionToken : string) (req : Request)
  : Request :=
  let req := assign_Set "" req in
  let req := assign_MetadataPrefix "" req in
  let req := assign_From "" req in
  let req := assign_ResumptionToken resumptionToken req in
  req.

(** The recursion of [Harvest] has no bound in Go; [fuel] bounds its depth
    here, and [OutOfFuel] tells that the bound was hit. *)
Fixpoint Request_Harvest (fuel : nat) (batchCallback : callback_on Response)
  (req : Request) (w : World) : completion * (Request * World) :=
  match fuel with
  | O => (OutOfFuel, (req, w))
  | S fuel =>
      match Request_Perform req w with
      | (inr e, w) => (Panicked e, (req, w))
      | (inl oaiResponse, w) =>
          match batchCallback oaiResponse w with
          | (Returned, w) =>
              let (hasResumptionToken, resumptionToken) :=
                Response_ResumptionToken (Some oaiResponse) in
              if hasResumptionToken
              then Request_Harvest fuel batchCallback
                     (continuation_request resumptionToken req) w
              else (Returned, (req, w))
          | (c, w) => (c, (req, w))
          end
      end
  end.

(** Go's [for _, x := range xs { callback(&x) }]: the callback runs on the
    elements from first to last; a panic ends the loop.  The pointer is to
    the loop variable; the callback is given the value it holds at the
    call. *)
Fixpoint range_call {A : Type} (callback : callback_on A) (xs : list A)
  (w : World) : completion * World :=
  match xs with
  | [] => (Returned, w)
  | x :: rest =>
      match callback x w with
      | (Returned, w) => range_call callback rest w
      | (c, w) => (c, w)
      end
  end.

(** ** Request.HarvestIdentifiers (oai.go, lines 217-225) *)

Definition Request_HarvestIdentifiers (fuel : nat) (callback : callback_on Header)
  (req : Request) (w : World) : completion * (Request * World) :=
  let req := assign_Verb "ListIdentifiers" req in
  Request_Harvest fuel
    (fun resp w =>
       let headers := ListIdentifiers_Headers (Response_ListIdentifiers resp) in
       range_call callback headers w)
    req w.

(** ** Request.HarvestRecords (oai.go, lines 229-237) *)

Definition Request_HarvestRecords (fuel : nat) (callback : callback_on Record_)
  (req : Request) (w : World) : completion * (Request * World) :=
  let req := assign_Verb "ListRecords" req in
  Request_Harvest fuel
    (fun resp w =>
       let records := ListRecords_Records (Response_ListRecords resp) in
       range_call callback records w)
    req w.

(** ** Request.ChannelHarvestIdentifiers (oai.go, lines 257-279) *)

(** Lines 262-268: the loop over the headers with its index [i].  A send is
    taken to be accepted by the consumer; [channels[i]] panics out of
    range.  What is sent is [&header], the address of the range variable:
    the event records the header that variable holds when the send is made,
    which is the header of that iteration.  What a consumer reads through
    the pointer later is not part of the event (before Go 1.22 the loop has
    one range variable for all its iterations). *)
Fixpoint send_headers (channels : list chan) (headers : list Header) (i : nat)
  (w : World) : completion * World :=
  match headers with
  | [] => (Returned, w)
  | header :: rest =>
      match nth_error channels i with
      | None => (Panicked ErrIndexOutOfRange, w)
      | Some ch =>
          let w := emit (EvSend ch (Some header)) w in
          let i := i + 1 in
          let i := if Nat.eqb i (length channels) then 0 else i in
          send_headers channels rest i w
      end
  end.

(** Lines 274-276: nil to each channel of the slice, in slice order. *)
Fixpoint send_nil (channels : list chan) (w : World) : World :=
  match channels with
  | [] => w
  | channel :: rest => send_nil rest (emit (EvSend channel None) w)
  end.

(** Lines 259-278: the page callback of the fan-out. *)
Definition fan_out (channels : list chan) : callback_on Response :=
  fun resp w =>
    let headers := ListIdentifiers_Headers (Response_ListIdentifiers resp) in
    let i := 0 in
    match send_headers channels headers i w with
    | (Returned, w) =>
        let (hasResumptionToken, _) := Response_ResumptionToken (Some resp) in
        if negb hasResumptionToken
        then (Returned, send_nil channels w)
        else (Returned, w)
    | (c, w) => (c, w)
    end.

Definition Request_ChannelHarvestIdentifiers (fuel : nat) (channels : list chan)
  (req : Request) (w : World) : completion * (Request * World) :=
  let req := assign_Verb "ListIdentifiers" req in
  Request_Harvest fuel (fan_out channels) req w.

(** ** Observers: callbacks that do nothing but record their argument *)

Definition observe_page : callback_on Response :=
  fun resp w => (Returned, emit (EvPage resp) w).

Definition observe_header : callback_on Header :=
  fun h w => (Returned, emit (EvHeader h) w).

Definition observe_record : callback_on Record_ :=
  fun r w => (Returned, emit (EvRecord r) w).

End Harvesting.

Arguments remote {Remote} w.
Arguments trace {Remote} w.
Arguments emit {Remote} e w.
Arguments callback_on Remote A : clear implicits.
Arguments range_call {Remote A} callback xs w.
Arguments send_headers {Remote} channels headers i w.
Arguments send_nil {Remote} channels w.
Arguments fan_out {Remote} channels resp w.
Arguments observe_page {Remote} resp w.
Arguments observe_header {Remote} h w.
Arguments observe_record {Remote} r w.
Arguments http_Get {Remote} serve target w.
Arguments Request_Perform {Remote} serve xml_Unmarshal req w.
Arguments Request_Harvest {Remote} serve xml_Unmarshal fuel batchCallback req w.
Arguments Request_HarvestIdentifiers {Remote} serve xml_Unmarshal fuel callback req w.
Arguments Request_HarvestRecords {Remote} serve xml_Unmarshal fuel callback req w.
Arguments Request_ChannelHarvestIdentifiers {Remote} serve xml_Unmarshal fuel channels req w.

(** ** The specification's wording, to be compared with the code *)

(** The seven parameters of a request in the order the specification
    lists them, each with its value. *)
Definition spec_parameters (req : Request) : list (string * string) :=
  [ ("verb", Request_Verb req);
    ("set", Request_Set req);
    ("metadataPrefix", Request_MetadataPrefix req);
    ("resumptionToken", Request_ResumptionToken req);
    ("identifier", Request_Identifier req);
    ("from", Request_From req);
    ("until", Request_Until req) ].

Definition nonempty_value (p : string * string) : bool :=
  negb (String.eqb (snd p) "").

(** [name=value], the value as it is. *)
Definition pair_text (p : string * string) : string :=
  (fst p ++ "=" ++ snd p)%string.

(** The target as the specification words it: base address, question
    mark, the pairs of the non-empty parameters joined by an ampersand. *)
Definition spec_target (req : Request) : string :=
  (Request_BaseUrl req ++ "?" ++
   String.concat "&" (map pair_text (filter nonempty_value (spec_parameters req))))%string.

(** The parameters a continuation request may still carry. *)
Definition continuation_parameters (token : string) (req : Request)
  : list (string * string) :=
  [ ("verb", Request_Verb req);
    ("resumptionToken", token);
    ("identifier", Request_Identifier req);
    ("until", Request_Until req) ].

(** The token as the specification words it: the one of the identifier
    list unless it is empty, then the one of the record list. *)
Definition spec_token (resp : Response) : string :=
  let li := ListIdentifiers_ResumptionToken (Response_ListIdentifiers resp) in
  let lr := ListRecords_ResumptionToken (Response_ListRecords resp) in
  if String.eqb li "" then lr else li.

(** ** Reading traces *)

Definition get_targets (t : list event) : list string :=
  flat_map (fun e => match e with EvGet u => [u] | _ => [] end) t.

Definition observed_pages (t : list event) : list Response :=
  flat_map (fun e => match e with EvPage p => [p] | _ => [] end) t.

(** The channels of the sends of real items, in the order of the sends. *)
Definition item_destinations (t : list event) : list chan :=
  flat_map (fun e => match e with EvSend ch (Some _) => [ch] | _ => [] end) t.

(** A request going out or a real item going to a channel: neither a nil
    sentinel nor the closing of a channel. *)
Definition get_or_item (e : event) : bool :=
  match e with
  | EvGet _ => true
  | EvSend _ (Some _) => true
  | _ => false
  end.

Definition sentinels (channels : list chan) : list event :=
  map (fun ch => EvSend ch None) channels.

(** The sends of the items of one page: the item at position [k] of the
    page goes to the channel at index [k mod N]. *)
Fixpoint item_sends (channels : list chan) (k : nat) (headers : list Header)
  : list event :=
  match headers with
  | [] => []
  | h :: rest =>
      EvSend (nth (k mod length channels) channels 0) (Some h)
        :: item_sends channels (S k) rest
  end.

(** All the sends of one page: positions count from 0 on every page, and
    the sentinels follow on a page without a token. *)
Definition page_sends (channels : list chan) (resp : Response) : list event :=
  item_sends channels 0 (ListIdentifiers_Headers (Response_ListIdentifiers resp))
  ++ (if fst (Response_ResumptionToken (Some resp)) then [] else sentinels channels).

(** A page observation replaced by what a strategy does with the page. *)
Definition expand_headers (e : event) : list event :=
  match e with
  | EvPage resp =>
      map EvHeader (ListIdentifiers_Headers (Response_ListIdentifiers resp))
  | _ => [e]
  end.

Definition expand_records (e : event) : list event :=
  match e with
  | EvPage resp => map EvRecord (ListRecords_Records (Response_ListRecords resp))
  | _ => [e]
  end.

Definition expand_fan_out (channels : list chan) (e : event) : list event :=
  match e with
  | EvPage resp => page_sends channels resp
  | _ => [e]
  end.

(** The destinations the cumulative reading predicts for [n] items. *)
Definition cumulative_destinations (N n : nat) : list nat :=
  map (fun i => i mod N) (seq 0 n).

(** The events of a page-observing harvest that starts with [req] and gets
    [pages] one after the other. *)
Fixpoint exchange_trace (req : Request) (pages : list Response) : list event :=
  match pages with
  | [] => []
  | p :: rest =>
      EvGet (Request_String req) :: EvPage p ::
      exchange_trace
        (continuation_request (snd (Response_ResumptionToken (Some p))) req) rest
  end.

(** ** A scripted remote *)

(** The answers the remote will give, one per GET that reaches it; when
    they are used up the transport fails. *)
Definition script := list (option HttpResponse).

(** [http.Get] parses the target before anything is sent, and fails on a
    target it does not accept; the remote is then not reached and keeps its
    answers.  [accepts] tells the targets [http.Get] accepts. *)
Definition scripted_serve_on (accepts : string -> bool) (target : string)
  (s : script) : option HttpResponse * script :=
  if accepts target
  then match s with
       | [] => (None, [])
       | r :: rest => (r, rest)
       end
  else (None, s).

(** Go's [net/url] refuses, first of all, a URL that holds an ASCII control
    byte (below the space, or 0x7f). *)
Fixpoint stringContainsCTLByte (s : string) : bool :=
  match s with
  | EmptyString => false
  | String b rest =>
      if (Nat.ltb (nat_of_ascii b) 32 || Nat.eqb (nat_of_ascii b) 127)%bool
      then true
      else stringContainsCTLByte rest
  end.

(** The scripted remote of the examples: a target with a control byte is
    refused.  The targets of the examples are plain http URLs, which
    [http.Get] accepts. *)
Definition scripted_serve : string -> script -> option HttpResponse * script :=
  scripted_serve_on (fun target => negb (stringContainsCTLByte target)).

(** The page an answer decodes to, if it does. *)
Definition reply_page (xml_Unmarshal : list byte -> option Response)
  (r : option HttpResponse) : option Response :=
  match r with
  | None => None
  | Some hr =>
      match HttpResponse_Body hr with
      | None => None
      | Some body => xml_Unmarshal body
      end
  end.

(** A stand-in decoder for examples: a one-byte body is the index of a page
    in a table, anything else does not decode. *)
Definition table_Unmarshal (table : list Response) (body : list byte)
  : option Response :=
  match body with
  | [b] => nth_error table (Byte.to_nat b)
  | _ => None
  end.

Definition reply (status : Z) (b : byte) : option HttpResponse :=
  Some {| HttpResponse_StatusCode := status; HttpResponse_Body := Some [b] |}.

(** ** Sample data *)

Definition assign_ListIdentifiers (li : ListIdentifiers) (resp : Response)
  : Response :=
  {| Response_ResponseDate := Response_ResponseDate resp;
     Response_Request := Response_Request resp;
     Response_Error := Response_Error resp;
     Response_Identify := Response_Identify resp;
     Response_ListMetadataFormats := Response_ListMetadataFormats resp;
     Response_ListSets := Response_ListSets resp;
     Response_GetRecord := Response_GetRecord resp;
     Response_ListIdentifiers := li;
     Response_ListRecords := Response_ListRecords resp |}.

Definition assign_ListRecords (lr : ListRecords) (resp : Response) : Response :=
  {| Response_ResponseDate := Response_ResponseDate resp;
     Response_Request := Response_Request resp;
     Response_Error := Response_Error resp;
     Response_Identify := Response_Identify resp;
     Response_ListMetadataFormats := Response_ListMetadataFormats resp;
     Response_ListSets := Response_ListSets resp;
     Response_GetRecord := Response_GetRecord resp;
     Response_ListIdentifiers := Response_ListIdentifiers resp;
     Response_ListRecords := lr |}.

Definition assign_Error (err : OAIError) (resp : Response) : Response :=
  {| Response_ResponseDate := Response_ResponseDate resp;
     Response_Request := Response_Request resp;
     Response_Error := err;
     Response_Identify := Response_Identify resp;
     Response_ListMetadataFormats := Response_ListMetadataFormats resp;
     Response_ListSets := Response_ListSets resp;
     Response_GetRecord := Response_GetRecord resp;
     Response_ListIdentifiers := Response_ListIdentifiers resp;
     Response_ListRecords := Response_ListRecords resp |}.

Definition header_of (identifier : string) : Header :=
  {| Header_Status := ""; Header_Identifier := identifier;
     Header_DateStamp := ""; Header_SetSpec := [] |}.

Definition record_of (identifier : string) : Record_ :=
  {| Record_Header := header_of identifier;
     Record_Metadata := {| Metadata_Body := [] |};
     Record_About := {| About_Body := [] |} |}.

Definition identifiers_page (ids : list string) (token : string) : Response :=
  assign_ListIdentifiers
    {| ListIdentifiers_Headers := map header_of ids;
       ListIdentifiers_ResumptionToken := token |}
    zero_Response.

Definition records_page (ids : list string) (token : string) : Response :=
  assign_ListRecords
    {| ListRecords_Records := map record_of ids;
       ListRecords_ResumptionToken := token |}
    zero_Response.

Definition error_page : Response :=
  assign_Error
    {| OAIError_Code := "badArgument"; OAIError_Message := "illegal argument" |}
    zero_Response.

(** The request of the command-line entry point (src/unnamed/part_000). *)
Definition kb_request : Request :=
  {| Request_BaseUrl := "http://services.kb.nl/mdo/oai";
     Request_Set := "DTS";
     Request_MetadataPrefix := "dcx";
     Request_Verb := "";
     Request_Identifier := "";
     Request_ResumptionToken := "";
     Request_From := "2012-09-06T014:00:00.000Z";
     Request_Until := "" |}.

(** Seven items over two pages, four and three. *)
Definition page_one : Response := identifiers_page ["a"; "b"; "c"; "d"] "1".

Definition page_two : Response := identifiers_page ["e"; "f"; "g"] "".

Definition pages_4_3 : list Response := [ page_one; page_two ].

(** Seven items over two pages, three and four. *)
Definition pages_3_4 : list Response :=
  [ identifiers_page ["a"; "b"; "c"] "1";
    identifiers_page ["d"; "e"; "f"; "g"] "" ].

Definition two_replies : script := [ reply 200 x00; reply 200 x01 ].

Definition start_world {Remote : Type} (r : Remote) : World Remote :=
  {| remote := r; trace := [] |}.

(** Two worlds before the same remote, the trace of the second being the
    trace of the first with every event replaced by [expand] of it. *)
Definition expands {Remote : Type} (expand : event -> list event)
  (wb wi : World Remote) : Prop :=
  remote wb = remote wi /\ trace wi = flat_map expand (trace wb).

(** What ends the trace of a fan-out harvest: the sentinels when the
    harvest returns, nothing when it does not. *)
Definition closing (c : completion) (channels : list chan) : list event :=
  match c with
  | Returned => sentinels channels
  | _ => []
  end.

(** The token the detector finds on a page. *)
Definition page_token (p : Response) : string :=
  snd (Response_ResumptionToken (Some p)).

Definition has_token (p : Response) : Prop :=
  fst (Response_ResumptionToken (Some p)) = true.

(** A harvest of identifiers from the entry point's repository, against a
    remote that answers with the two pages of four and three items. *)
Definition sample_request : Request := assign_Verb "ListIdentifiers" kb_request.

Definition sample_world : World script := start_world two_replies.

Definition sample_Unmarshal : list byte -> option Response :=
  table_Unmarshal pages_4_3.

(** The reading of the specification that any non-success status makes
    [Perform] panic. *)
Definition non_success_status_is_fatal : Prop :=
  forall (Remote : Type) (serve : string -> Remote -> option HttpResponse * Remote)
         (xml_Unmarshal : list byte -> option Response)
         (req : Request) (w : World Remote) (hr : HttpResponse),
    fst (http_Get serve (Request_String req) w) = Some hr ->
    ~ (200 <= HttpResponse_StatusCode hr < 300)%Z ->
    exists e, fst (Request_Perform serve xml_Unmarshal req w) = inr e.

(** The reading of the specification that the position of an item counts
    over the whole harvest: whatever the pages, the items go to the
    channels [0, 1, ..., N-1, 0, 1, ...] of a collection [0 .. N-1]. *)
Definition round_robin_is_cumulative : Prop :=
  forall (xml_Unmarshal : list byte -> option Response) (s : script)
         (fuel N : nat) (req : Request) (r : Request) (w : World script),
    Request_ChannelHarvestIdentifiers scripted_serve xml_Unmarshal fuel
      (seq 0 N) req (start_world s) = (Returned, (r, w)) ->
    item_destinations (trace w)
    = cumulative_destinations N (length (item_destinations (trace w))).

Definition assign_Identifier (v : string) (req : Request) : Request :=
  {| Request_BaseUrl := Request_BaseUrl req;
     Request_Set := Request_Set req;
     Request_MetadataPrefix := Request_MetadataPrefix req;
     Request_Verb := Request_Verb req;
     Request_Identifier := v;
     Request_ResumptionToken := Request_ResumptionToken req;
     Request_From := Request_From req;
     Request_Until := Request_Until req |}.

(** ** More readings of traces *)

Definition observed_headers (t : list event) : list Header :=
  flat_map (fun e => match e with EvHeader h => [h] | _ => [] end) t.


(** How many nil sentinels the channel [ch] was sent. *)
Definition nil_count (ch : chan) (t : list event) : nat :=
  length (filter (fun e => match e with
                           | EvSend c None => Nat.eqb c ch
                           | _ => false
                           end) t).


(** The request after the pages [front], each with a token, have been
    harvested. *)
Definition final_request (front : list Response) (req : Request) : Request :=
  fold_left (fun r p => continuation_request (page_token p) r) front req.

(** What a page-observing harvest of depth [fuel] that starts with [req]
    on the trace [t0] may end with: completion [c], request [r], trace [t]. *)
Definition harvest_shape (fuel : nat) (req : Request) (t0 : list event)
  (c : completion) (r : Request) (t : list event) : Prop :=
  match c with
  | Returned =>
      exists front last,
        Forall has_token front
        /\ fst (Response_ResumptionToken (Some last)) = false
        /\ length front < fuel
        /\ r = final_request front req
        /\ t = t0 ++ exchange_trace req (front ++ [last])
  | Panicked e =>
      exists pages,
        Forall has_token pages
        /\ length pages < fuel
        /\ (e = ErrGet \/ e = ErrReadAll \/ e = ErrUnmarshal)
        /\ r = final_request pages req
        /\ t = t0 ++ exchange_trace req pages ++ [EvGet (Request_String r)]
  | OutOfFuel =>
      exists pages,
        Forall has_token pages
        /\ length pages = fuel
        /\ r = final_request pages req
        /\ t = t0 ++ exchange_trace req pages
  end.

(** An item callback that panics with [e] on the headers [bad] picks and
    records every other header. *)
Definition panic_when {Remote : Type} (bad : Header -> bool) (e : error)
  : callback_on Remote Header :=
  fun h w => if bad h then (Panicked e, w) else observe_header h w.

Definition has_identifier (id : string) (h : Header) : bool :=
  String.eqb (Header_Identifier h) id.


(** ** Harvests page by page *)

(** What the strategies hand over for one page. *)
Definition page_event (p : Response) : list event := [EvPage p].

Definition header_events (p : Response) : list event :=
  map EvHeader (ListIdentifiers_Headers (Response_ListIdentifiers p)).

Definition record_events (p : Response) : list event :=
  map EvRecord (ListRecords_Records (Response_ListRecords p)).

(** The sends of the items of a page, without the sentinels. *)
Definition item_events (channels : list chan) (p : Response) : list event :=
  item_sends channels 0 (ListIdentifiers_Headers (Response_ListIdentifiers p)).

(** The events of a harvest that starts with [req] and gets [pages] one
    after the other, each page giving rise to the events [deliver] of it:
    a GET, the events of its page, the next GET, and so on. *)
Fixpoint delivery_trace (deliver : Response -> list event) (req : Request)
  (pages : list Response) : list event :=
  match pages with
  | [] => []
  | p :: rest =>
      EvGet (Request_String req)
        :: deliver p
        ++ delivery_trace deliver (continuation_request (page_token p) req) rest
  end.

Definition observed_records (t : list event) : list Record_ :=
  flat_map (fun e => match e with EvRecord r => [r] | _ => [] end) t.

(** The targets of a harvest that starts with [req] and meets the pages
    [front], each with a token: the one of [req] and, after each page, the
    one of the continuation request of its token.  [http.Get] accepts them
    all. *)
Definition targets_accepted (accepts : string -> bool) (req : Request)
  (front : list Response) : Prop :=
  Forall (fun target => accepts target = true)
    (Request_String req
       :: map (fun p => Request_String (continuation_request (page_token p) req))
            front).

(** A token with a line feed in it, and a first page that carries it. *)
Definition line_feed_token : string := String "1" (String "010" (String "2" "")).

Definition page_line_feed : Response :=
  identifiers_page ["a"; "b"; "c"; "d"] line_feed_token.

(** The reading of the specification that any sequence of pages, all but
    the last with a non-empty token, is harvested to its end with one GET
    per page. *)
Definition every_token_sequence_is_harvested : Prop :=
  forall (xml_Unmarshal : list byte -> option Response)
         (front : list Response) (last : Response) (s : script)
         (req : Request) (fuel : nat),
    map (reply_page xml_Unmarshal) s = map Some (front ++ [last]) ->
    Forall has_token front ->
    fst (Response_ResumptionToken (Some last)) = false ->
    length front < fuel ->
    exists (req' : Request) (t : list event),
      Request_Harvest scripted_serve xml_Unmarshal fuel observe_page req
        (start_world s)
      = (Returned, (req', {| remote := []; trace := t |}))
      /\ length (get_targets t) = length (front ++ [last]).

(** * Properties *)

(** Appends to the right, no empty tail. *)
Ltac list_norm :=
  repeat first [ rewrite <- app_assoc | rewrite app_nil_r | progress cbn [app] ].

(** ** Serialisation of a request *)

Lemma strings_Join_concat (elems : list string) (sep : string) :
  strings_Join elems sep = String.concat sep elems.
Proof.
  induction elems as [|e rest IH]; [reflexivity|].
  destruct rest as [|e' rest']; [reflexivity|].
  change (strings_Join (e :: e' :: rest') sep)
    with (e ++ sep ++ strings_Join (e' :: rest') sep)%string.
  now rewrite IH.
Qed.

Lemma add_filter (qs : list string) (name value : string) :
  add qs name value
  = qs ++ map pair_text (filter nonempty_value [(name, value)]).
Proof.
  unfold add, nonempty_value; simpl.
  destruct (String.eqb value ""); simpl; [now rewrite app_nil_r | reflexivity].
Qed.

Lemma Request_qs_filter (req : Request) :
  Request_qs req = map pair_text (filter nonempty_value (spec_parameters req)).
Proof.
  unfold Request_qs.
  rewrite !add_filter, <- !app_assoc, <- !map_app, <- !filter_app.
  reflexivity.
Qed.

Lemma Request_String_spec_aux (req : Request) :
  Request_String req = spec_target req.
Proof.
  unfold Request_String, spec_target.
  rewrite <- strings_Join_concat, <- Request_qs_filter.
  reflexivity.
Qed.

(** C5. The serialised target of a request is its base address, a question
    mark, and the [name=value] pairs of exactly the non-empty parameters
    among verb, set, metadataPrefix, resumptionToken, identifier, from and
    until, in that order, the values as they are, joined by an ampersand. *)
Theorem Request_String_spec (req : Request) :
  Request_String req = spec_target req
  /\ Request_qs req = map pair_text (filter nonempty_value (spec_parameters req)).
Proof.
  split; [apply Request_String_spec_aux | apply Request_qs_filter].
Qed.

Example Request_String_kb :
  Request_String (assign_Verb "ListRecords" kb_request)
  = "http://services.kb.nl/mdo/oai?verb=ListRecords&set=DTS&metadataPrefix=dcx&from=2012-09-06T014:00:00.000Z".
Proof. reflexivity. Qed.

Example Request_String_no_parameter :
  Request_String
    {| Request_BaseUrl := "http://host/oai"; Request_Set := "";
       Request_MetadataPrefix := ""; Request_Verb := "";
       Request_Identifier := ""; Request_ResumptionToken := "";
       Request_From := ""; Request_Until := "" |}
  = "http://host/oai?".
Proof. reflexivity. Qed.

(** ** Detection of the resumption token *)

Lemma detector_token (resp : Response) :
  Response_ResumptionToken (Some resp)
  = (negb (String.eqb (spec_token resp) ""), spec_token resp).
Proof.
  unfold Response_ResumptionToken, spec_token.
  destruct (String.eqb
              (ListIdentifiers_ResumptionToken (Response_ListIdentifiers resp)) "")
    eqn:E; simpl.
  - destruct (String.eqb
                (ListRecords_ResumptionToken (Response_ListRecords resp)) "");
      reflexivity.
  - rewrite E. reflexivity.
Qed.

(** C4. On a response the detector returns the token of the identifier
    list when that is not empty and the token of the record list otherwise,
    and it reports a token exactly when the one it returns is not empty:
    both tokens empty give absence, and a non-empty token of the identifier
    list wins over whatever the record list holds. *)
Theorem Response_ResumptionToken_spec (resp : Response) :
  let li := ListIdentifiers_ResumptionToken (Response_ListIdentifiers resp) in
  let lr := ListRecords_ResumptionToken (Response_ListRecords resp) in
  Response_ResumptionToken (Some resp)
  = (negb (String.eqb (spec_token resp) ""), spec_token resp)
  /\ (fst (Response_ResumptionToken (Some resp)) = true
      <-> snd (Response_ResumptionToken (Some resp)) <> "")
  /\ (li = "" -> lr = "" -> Response_ResumptionToken (Some resp) = (false, ""))
  /\ (li <> "" -> Response_ResumptionToken (Some resp) = (true, li)).
Proof.
  intros li lr.
  rewrite detector_token. unfold spec_token. fold li; fold lr. simpl.
  destruct (String.eqb li "") eqn:Eli; simpl.
  - apply String.eqb_eq in Eli.
    destruct (String.eqb lr "") eqn:Elr; simpl.
    + apply String.eqb_eq in Elr. intuition congruence.
    + apply String.eqb_neq in Elr. intuition congruence.
  - rewrite Eli. apply String.eqb_neq in Eli. simpl. intuition congruence.
Qed.

Example ResumptionToken_identifiers_first :
  Response_ResumptionToken
    (Some (assign_ListRecords
             {| ListRecords_Records := []; ListRecords_ResumptionToken := "r" |}
             (identifiers_page [] "i")))
  = (true, "i").
Proof. reflexivity. Qed.

Example ResumptionToken_records_second :
  Response_ResumptionToken (Some (records_page ["x"] "r")) = (true, "r").
Proof. reflexivity. Qed.

(** C10. On a nil response the detector returns absence and the empty
    token, as it does on a response without any token. *)
Theorem Response_ResumptionToken_nil :
  Response_ResumptionToken None = (false, "")
  /\ Response_ResumptionToken None = Response_ResumptionToken (Some zero_Response)
  /\ forall resp : Response,
       spec_token resp = "" ->
       Response_ResumptionToken None = Response_ResumptionToken (Some resp).
Proof.
  split; [reflexivity|]. split; [reflexivity|].
  intros resp H.
  rewrite detector_token, H. reflexivity.
Qed.

(** ** One execution of a request, one step of the harvest *)

Section HarvestFacts.

Variable Remote : Type.
Variable serve : string -> Remote -> option HttpResponse * Remote.
Variable xml_Unmarshal : list byte -> option Response.

Local Abbreviation Perform := (Request_Perform serve xml_Unmarshal).
Local Abbreviation Harvest := (Request_Harvest serve xml_Unmarshal).

Lemma http_Get_world (target : string) (w : World Remote) :
  snd (http_Get serve target w)
  = {| remote := snd (serve target (remote w));
       trace := trace w ++ [EvGet target] |}.
Proof.
  unfold http_Get. destruct (serve target (remote w)); reflexivity.
Qed.

Lemma Perform_world (req : Request) (w : World Remote) :
  snd (Perform req w) = snd (http_Get serve (Request_String req) w).
Proof.
  unfold Request_Perform.
  destruct (http_Get serve (Request_String req) w) as [[hr|] w1]; simpl;
    [|reflexivity].
  destruct (HttpResponse_Body hr) as [body|]; [|reflexivity].
  destruct (xml_Unmarshal body); reflexivity.
Qed.

Lemma Perform_fst (req : Request) (w : World Remote) :
  fst (Perform req w)
  = match fst (http_Get serve (Request_String req) w) with
    | None => inr ErrGet
    | Some hr =>
        match HttpResponse_Body hr with
        | None => inr ErrReadAll
        | Some body =>
            match xml_Unmarshal body with
            | None => inr ErrUnmarshal
            | Some resp => inl resp
            end
        end
    end.
Proof.
  unfold Request_Perform.
  destruct (http_Get serve (Request_String req) w) as [[hr|] w1]; simpl;
    [|reflexivity].
  destruct (HttpResponse_Body hr) as [body|]; [|reflexivity].
  destruct (xml_Unmarshal body); reflexivity.
Qed.

Lemma Harvest_S (fuel : nat) (cb : callback_on Remote Response)
  (req : Request) (w : World Remote) :
  Harvest (S fuel) cb req w
  = match Perform req w with
    | (inr e, w) => (Panicked e, (req, w))
    | (inl oaiResponse, w) =>
        match cb oaiResponse w with
        | (Returned, w) =>
            let (hasResumptionToken, resumptionToken) :=
              Response_ResumptionToken (Some oaiResponse) in
            if hasResumptionToken
            then Harvest fuel cb (continuation_request resumptionToken req) w
            else (Returned, (req, w))
        | (c, w) => (c, (req, w))
        end
    end.
Proof. reflexivity. Qed.

Lemma Harvest_panic (fuel : nat) (cb : callback_on Remote Response)
  (req : Request) (w w1 : World Remote) (e : error) :
  Perform req w = (inr e, w1) ->
  Harvest (S fuel) cb req w = (Panicked e, (req, w1)).
Proof.
  intros H. rewrite Harvest_S, H. reflexivity.
Qed.

Lemma Harvest_last (fuel : nat) (cb : callback_on Remote Response)
  (req : Request) (w w1 w2 : World Remote) (resp : Response) :
  Perform req w = (inl resp, w1) ->
  cb resp w1 = (Returned, w2) ->
  fst (Response_ResumptionToken (Some resp)) = false ->
  Harvest (S fuel) cb req w = (Returned, (req, w2)).
Proof.
  intros HP Hcb Hno. rewrite Harvest_S, HP, Hcb.
  destruct (Response_ResumptionToken (Some resp)) as [has tok].
  simpl in Hno. subst has. reflexivity.
Qed.

Lemma Harvest_more (fuel : nat) (cb : callback_on Remote Response)
  (req : Request) (w w1 w2 : World Remote) (resp : Response) (tok : string) :
  Perform req w = (inl resp, w1) ->
  cb resp w1 = (Returned, w2) ->
  Response_ResumptionToken (Some resp) = (true, tok) ->
  Harvest (S fuel) cb req w = Harvest fuel cb (continuation_request tok req) w2.
Proof.
  intros HP Hcb Htok. rewrite Harvest_S, HP, Hcb, Htok. reflexivity.
Qed.

(** C6 (amended). A failure of the GET, of the reading of the body or of
    the decoding makes [Perform] panic with that error after a single GET
    (no second attempt), and the panic ends the harvest that called it: no
    response reaches the callback and no further request is made.  The
    status code is not looked at: whatever it is, a body that decodes is
    returned as the response. *)
Theorem Request_Perform_failures (fuel : nat) (cb : callback_on Remote Response)
  (req : Request) (w : World Remote) :
  let w1 := snd (http_Get serve (Request_String req) w) in
  let fatal := fun e : error =>
    Perform req w = (inr e, w1)
    /\ Harvest (S fuel) cb req w = (Panicked e, (req, w1)) in
  trace w1 = trace w ++ [EvGet (Request_String req)]
  /\ match fst (http_Get serve (Request_String req) w) with
     | None => fatal ErrGet
     | Some hr =>
         match HttpResponse_Body hr with
         | None => fatal ErrReadAll
         | Some body =>
             match xml_Unmarshal body with
             | None => fatal ErrUnmarshal
             | Some resp => Perform req w = (inl resp, w1)
             end
         end
     end.
Proof.
  intros w1 fatal. split.
  - subst w1. rewrite http_Get_world. reflexivity.
  - assert (HP : forall x, fst (Perform req w) = x -> Perform req w = (x, w1)).
    { intros x Hx. subst w1. rewrite <- Perform_world, <- Hx.
      destruct (Perform req w); reflexivity. }
    assert (HF : forall e, fst (Perform req w) = inr e -> fatal e).
    { intros e He. split; [now apply HP|]. apply Harvest_panic. now apply HP. }
    clearbody fatal w1.
    pose proof (Perform_fst req w) as E.
    destruct (fst (http_Get serve (Request_String req) w)) as [hr|];
      [|now apply HF].
    destruct (HttpResponse_Body hr) as [body|]; [|now apply HF].
    destruct (xml_Unmarshal body) as [resp|]; [now apply HP | now apply HF].
Qed.

(** C2. When the page just delivered carries a token, the harvest goes on
    with the request whose set, metadataPrefix and from are empty and whose
    resumptionToken is that token; base address, verb, identifier and until
    are as they were.  The next GET goes to the target of that request,
    whose query string holds the pairs of the non-empty ones among verb,
    resumptionToken, identifier and until, the resumptionToken always and
    the verb whenever the request has one, and nothing else. *)
Theorem Harvest_continuation_request (fuel : nat)
  (cb : callback_on Remote Response) (req : Request) (w w1 w2 : World Remote)
  (resp : Response) (tok : string) :
  Perform req w = (inl resp, w1) ->
  cb resp w1 = (Returned, w2) ->
  Response_ResumptionToken (Some resp) = (true, tok) ->
  let req' := continuation_request tok req in
  Harvest (S fuel) cb req w = Harvest fuel cb req' w2
  /\ trace (snd (Perform req' w2)) = trace w2 ++ [EvGet (Request_String req')]
  /\ (Request_Set req' = "" /\ Request_MetadataPrefix req' = ""
      /\ Request_From req' = "" /\ Request_ResumptionToken req' = tok)
  /\ (Request_BaseUrl req' = Request_BaseUrl req
      /\ Request_Verb req' = Request_Verb req
      /\ Request_Identifier req' = Request_Identifier req
      /\ Request_Until req' = Request_Until req)
  /\ Request_qs req'
     = map pair_text (filter nonempty_value (continuation_parameters tok req))
  /\ In ("resumptionToken=" ++ tok)%string (Request_qs req')
  /\ (Request_Verb req <> ""
      -> In ("verb=" ++ Request_Verb req)%string (Request_qs req'))
  /\ Request_String req'
     = (Request_BaseUrl req ++ "?" ++
        String.concat "&"
          (map pair_text
             (filter nonempty_value (continuation_parameters tok req))))%string.
Proof.
  intros HP Hcb Htok req'.
  assert (Hne : String.eqb tok "" = false).
  { rewrite detector_token in Htok. injection Htok as H1 H2.
    rewrite H2 in H1. destruct (String.eqb tok ""); [discriminate|reflexivity]. }
  assert (Hqs : Request_qs req'
     = map pair_text (filter nonempty_value (continuation_parameters tok req))).
  { rewrite Request_qs_filter. reflexivity. }
  split; [now apply Harvest_more with (w1 := w1) (resp := resp)|].
  split; [rewrite Perform_world, http_Get_world; reflexivity|].
  split; [repeat split|]. split; [repeat split|].
  split; [exact Hqs|]. split; [|split].
  - rewrite Hqs. unfold continuation_parameters, nonempty_value. simpl.
    rewrite Hne. simpl.
    destruct (String.eqb (Request_Verb req) ""); simpl; auto.
  - intros Hverb. apply String.eqb_neq in Hverb.
    rewrite Hqs. unfold continuation_parameters, nonempty_value. simpl.
    rewrite Hverb. simpl. auto.
  - rewrite Request_String_spec_aux. unfold spec_target.
    rewrite <- Request_qs_filter, Hqs. reflexivity.
Qed.

(** C7. A decoded response whose two list payloads are empty, whatever its
    error element holds, is handed to the callback as any page is, carries
    no token for the detector, and ends the harvest by a normal return; the
    detector gives the same answer whatever the error element. *)
Theorem Harvest_error_envelope (fuel : nat) (cb : callback_on Remote Response)
  (req : Request) (w w1 w2 : World Remote) (resp : Response) :
  Perform req w = (inl resp, w1) ->
  Response_ListIdentifiers resp = Response_ListIdentifiers zero_Response ->
  Response_ListRecords resp = Response_ListRecords zero_Response ->
  cb resp w1 = (Returned, w2) ->
  Response_ResumptionToken (Some resp) = (false, "")
  /\ Harvest (S fuel) cb req w = (Returned, (req, w2))
  /\ Harvest (S fuel) observe_page req w
     = (Returned, (req, emit (EvPage resp) w1))
  /\ forall err : OAIError,
       Response_ResumptionToken (Some (assign_Error err resp))
       = Response_ResumptionToken (Some resp).
Proof.
  intros HP Hli Hlr Hcb.
  assert (Hno : Response_ResumptionToken (Some resp) = (false, "")).
  { unfold Response_ResumptionToken. rewrite Hli, Hlr. reflexivity. }
  split; [exact Hno|]. split; [|split].
  - apply Harvest_last with (w1 := w1) (resp := resp); auto.
    now rewrite Hno.
  - apply Harvest_last with (w1 := w1) (resp := resp); auto.
    now rewrite Hno.
  - intros err. reflexivity.
Qed.

(** ** Whole harvests *)

Lemma world_eta (w : World Remote) :
  {| remote := remote w; trace := trace w ++ [] |} = w.
Proof. destruct w; simpl. now rewrite app_nil_r. Qed.

Lemma http_Get_fst (target : string) (w : World Remote) :
  fst (http_Get serve target w) = fst (serve target (remote w)).
Proof.
  unfold http_Get. destruct (serve target (remote w)); reflexivity.
Qed.

Lemma Perform_expands (expand : event -> list event) (req : Request)
  (wb wi : World Remote) :
  (forall target, expand (EvGet target) = [EvGet target]) ->
  expands expand wb wi ->
  fst (Perform req wb) = fst (Perform req wi)
  /\ expands expand (snd (Perform req wb)) (snd (Perform req wi)).
Proof.
  intros Hget [Hr Ht]. split.
  - rewrite !Perform_fst, !http_Get_fst, Hr. reflexivity.
  - rewrite !Perform_world, !http_Get_world. split; simpl.
    + now rewrite Hr.
    + rewrite flat_map_app, Ht. simpl. now rewrite Hget.
Qed.

(** Two harvests whose callbacks keep the worlds related end alike, in
    related worlds. *)
Lemma Harvest_expands (expand : event -> list event)
  (cbB cbI : callback_on Remote Response) :
  (forall target, expand (EvGet target) = [EvGet target]) ->
  (forall resp wb wi, expands expand wb wi ->
     exists wb' wi', cbB resp wb = (Returned, wb')
                     /\ cbI resp wi = (Returned, wi')
                     /\ expands expand wb' wi') ->
  forall fuel req wb wi, expands expand wb wi ->
    exists c r wb' wi',
      Harvest fuel cbB req wb = (c, (r, wb'))
      /\ Harvest fuel cbI req wi = (c, (r, wi'))
      /\ expands expand wb' wi'.
Proof.
  intros Hget Hcb fuel.
  induction fuel as [|fuel IH]; intros req wb wi Hrel.
  - exists OutOfFuel, req, wb, wi. auto.
  - rewrite !Harvest_S.
    destruct (Perform_expands expand req wb wi Hget Hrel) as [Hfst Hsnd].
    destruct (Perform req wb) as [[resp|e] wb1];
      destruct (Perform req wi) as [[resp'|e'] wi1]; simpl in Hfst, Hsnd;
      try discriminate.
    + injection Hfst as <-.
      destruct (Hcb resp wb1 wi1 Hsnd) as (wb2 & wi2 & Eb & Ei & Hrel2).
      rewrite Eb, Ei.
      destruct (Response_ResumptionToken (Some resp)) as [[|] tok].
      * apply IH. exact Hrel2.
      * exists Returned, req, wb2, wi2. auto.
    + injection Hfst as <-.
      exists (Panicked e), req, wb1, wi1. auto.
Qed.

Lemma range_call_observe_header (hs : list Header) (w : World Remote) :
  range_call observe_header hs w
  = (Returned, {| remote := remote w; trace := trace w ++ map EvHeader hs |}).
Proof.
  revert w. induction hs as [|h rest IH]; intros w; simpl.
  - now rewrite world_eta.
  - rewrite IH. simpl. now rewrite <- app_assoc.
Qed.

Lemma range_call_observe_record (rs : list Record_) (w : World Remote) :
  range_call observe_record rs w
  = (Returned, {| remote := remote w; trace := trace w ++ map EvRecord rs |}).
Proof.
  revert w. induction rs as [|r rest IH]; intros w; simpl.
  - now rewrite world_eta.
  - rewrite IH. simpl. now rewrite <- app_assoc.
Qed.

Lemma HarvestIdentifiers_expands (fuel : nat) (req : Request) (r0 : Remote) :
  exists c r wb wi,
    Harvest fuel observe_page (assign_Verb "ListIdentifiers" req) (start_world r0)
    = (c, (r, wb))
    /\ Request_HarvestIdentifiers serve xml_Unmarshal fuel observe_header req
         (start_world r0) = (c, (r, wi))
    /\ remote wb = remote wi
    /\ trace wi = flat_map expand_headers (trace wb).
Proof.
  unfold Request_HarvestIdentifiers.
  destruct (Harvest_expands expand_headers observe_page
              (fun resp w =>
                 range_call observe_header
                   (ListIdentifiers_Headers (Response_ListIdentifiers resp)) w))
    with (fuel := fuel) (req := assign_Verb "ListIdentifiers" req)
         (wb := start_world r0) (wi := start_world r0)
    as (c & r & wb & wi & Hb & Hi & Hr & Ht).
  - reflexivity.
  - intros resp wb wi [Hr Ht]. eexists. eexists.
    split; [reflexivity|]. split; [apply range_call_observe_header|].
    split; simpl; [exact Hr|].
    rewrite flat_map_app, Ht. simpl. now rewrite app_nil_r.
  - split; reflexivity.
  - exists c, r, wb, wi. auto.
Qed.

Lemma HarvestRecords_expands (fuel : nat) (req : Request) (r0 : Remote) :
  exists c r wb wi,
    Harvest fuel observe_page (assign_Verb "ListRecords" req) (start_world r0)
    = (c, (r, wb))
    /\ Request_HarvestRecords serve xml_Unmarshal fuel observe_record req
         (start_world r0) = (c, (r, wi))
    /\ remote wb = remote wi
    /\ trace wi = flat_map expand_records (trace wb).
Proof.
  unfold Request_HarvestRecords.
  destruct (Harvest_expands expand_records observe_page
              (fun resp w =>
                 range_call observe_record
                   (ListRecords_Records (Response_ListRecords resp)) w))
    with (fuel := fuel) (req := assign_Verb "ListRecords" req)
         (wb := start_world r0) (wi := start_world r0)
    as (c & r & wb & wi & Hb & Hi & Hr & Ht).
  - reflexivity.
  - intros resp wb wi [Hr Ht]. eexists. eexists.
    split; [reflexivity|]. split; [apply range_call_observe_record|].
    split; simpl; [exact Hr|].
    rewrite flat_map_app, Ht. simpl. now rewrite app_nil_r.
  - split; reflexivity.
  - exists c, r, wb, wi. auto.
Qed.

(** ** The fan-out *)

Lemma next_index (N k : nat) :
  0 < N ->
  (if Nat.eqb (k mod N + 1) N then 0 else k mod N + 1) = S k mod N.
Proof.
  intros HN.
  assert (Hlt : k mod N < N) by (apply Nat.mod_upper_bound; lia).
  replace (S k) with (k + 1) by lia.
  rewrite <- Nat.Div0.add_mod_idemp_l.
  generalize dependent (k mod N). intros x Hlt.
  destruct (Nat.eqb_spec (x + 1) N) as [E|E].
  - rewrite E. now rewrite Nat.Div0.mod_same.
  - symmetry. apply Nat.mod_small. lia.
Qed.

Lemma send_headers_round_robin (channels : list chan) (hs : list Header)
  (k : nat) (w : World Remote) :
  channels <> [] ->
  send_headers channels hs (k mod length channels) w
  = (Returned,
     {| remote := remote w; trace := trace w ++ item_sends channels k hs |}).
Proof.
  intros Hne.
  assert (HN : 0 < length channels) by (destruct channels; simpl; [congruence|lia]).
  revert k w. induction hs as [|h rest IH]; intros k w; simpl.
  - now rewrite world_eta.
  - rewrite (nth_error_nth' channels 0)
      by (apply Nat.mod_upper_bound; lia).
    rewrite next_index by exact HN.
    rewrite IH. simpl. now rewrite <- app_assoc.
Qed.

Lemma send_nil_sentinels (channels : list chan) (w : World Remote) :
  send_nil channels w
  = {| remote := remote w; trace := trace w ++ sentinels channels |}.
Proof.
  revert w. induction channels as [|ch rest IH]; intros w; simpl.
  - now rewrite world_eta.
  - rewrite IH. simpl. now rewrite <- app_assoc.
Qed.

Lemma fan_out_page (channels : list chan) (resp : Response) (w : World Remote) :
  channels <> [] ->
  fan_out channels resp w
  = (Returned,
     {| remote := remote w; trace := trace w ++ page_sends channels resp |}).
Proof.
  intros Hne. unfold fan_out, page_sends.
  pose proof (send_headers_round_robin channels
                (ListIdentifiers_Headers (Response_ListIdentifiers resp)) 0 w Hne)
    as Hsend.
  rewrite Nat.Div0.mod_0_l in Hsend. rewrite Hsend.
  destruct (Response_ResumptionToken (Some resp)) as [[|] tok]; simpl.
  - now rewrite app_nil_r.
  - rewrite send_nil_sentinels. simpl. now rewrite <- app_assoc.
Qed.

(** C3 (amended). With at least one channel, the fan-out harvest ends as
    the page-observing harvest of the same request does, and its trace is
    the trace of that harvest with each page replaced by the sends of the
    page: the item at position k of its page, the positions counting from 0
    again on every page, goes to the channel at index k mod N (and a page
    without a token is followed by the sentinels). *)
Theorem fan_out_round_robin_per_page (fuel : nat) (channels : list chan)
  (req : Request) (r0 : Remote) :
  channels <> [] ->
  (forall (resp : Response) (w : World Remote),
      fan_out channels resp w
      = (Returned,
         {| remote := remote w;
            trace := trace w
                     ++ item_sends channels 0
                          (ListIdentifiers_Headers (Response_ListIdentifiers resp))
                     ++ (if fst (Response_ResumptionToken (Some resp))
                         then [] else sentinels channels) |}))
  /\ exists c r wb wi,
      Harvest fuel observe_page (assign_Verb "ListIdentifiers" req) (start_world r0)
      = (c, (r, wb))
      /\ Request_ChannelHarvestIdentifiers serve xml_Unmarshal fuel channels req
           (start_world r0) = (c, (r, wi))
      /\ remote wb = remote wi
      /\ trace wi = flat_map (expand_fan_out channels) (trace wb).
Proof.
  intros Hne. split.
  - intros resp w. now apply fan_out_page.
  - unfold Request_ChannelHarvestIdentifiers.
    destruct (Harvest_expands (expand_fan_out channels) observe_page
                (fan_out channels))
      with (fuel := fuel) (req := assign_Verb "ListIdentifiers" req)
           (wb := start_world r0) (wi := start_world r0)
      as (c & r & wb & wi & Hb & Hi & Hr & Ht).
    + reflexivity.
    + intros resp wb wi [Hr Ht]. eexists. eexists.
      split; [reflexivity|]. split; [now apply fan_out_page|].
      split; simpl; [exact Hr|].
      rewrite flat_map_app, Ht. simpl. now rewrite app_nil_r.
    + split; reflexivity.
    + exists c, r, wb, wi. auto.
Qed.

Lemma send_headers_items (channels : list chan) (hs : list Header) (i : nat)
  (w : World Remote) :
  exists c items,
    send_headers channels hs i w
    = (c, {| remote := remote w; trace := trace w ++ items |})
    /\ forallb get_or_item items = true
    /\ (c = Returned \/ c = Panicked ErrIndexOutOfRange).
Proof.
  revert i w. induction hs as [|h rest IH]; intros i w; simpl.
  - exists Returned, []. rewrite world_eta. auto.
  - destruct (nth_error channels i) as [ch|].
    + destruct (IH (if Nat.eqb (i + 1) (length channels) then 0 else i + 1)
                   (emit (EvSend ch (Some h)) w))
        as (c & items & E & Hall & Hc).
      exists c, (EvSend ch (Some h) :: items).
      rewrite E. simpl. rewrite <- app_assoc. auto.
    + exists (Panicked ErrIndexOutOfRange), []. rewrite world_eta. auto.
Qed.

Lemma fan_out_cases (channels : list chan) (resp : Response) (w : World Remote) :
  exists items,
    forallb get_or_item items = true
    /\ (fan_out channels resp w
        = (Panicked ErrIndexOutOfRange,
           {| remote := remote w; trace := trace w ++ items |})
        \/ fan_out channels resp w
           = (Returned,
              {| remote := remote w;
                 trace := trace w ++ items
                          ++ (if fst (Response_ResumptionToken (Some resp))
                              then [] else sentinels channels) |})).
Proof.
  unfold fan_out.
  destruct (send_headers_items channels
              (ListIdentifiers_Headers (Response_ListIdentifiers resp)) 0 w)
    as (c & items & E & Hall & [Hc|Hc]); subst c; rewrite E;
    exists items; (split; [exact Hall|]).
  - right.
    destruct (Response_ResumptionToken (Some resp)) as [[|] tok]; simpl.
    + now rewrite app_nil_r.
    + rewrite send_nil_sentinels. simpl. now rewrite <- app_assoc.
  - left. reflexivity.
Qed.

Lemma Harvest_fan_out_trace (channels : list chan) (fuel : nat) :
  forall (req : Request) (w : World Remote),
  exists c r rem items,
    Harvest fuel (fan_out channels) req w
    = (c, (r, {| remote := rem;
                 trace := trace w ++ items ++ closing c channels |}))
    /\ forallb get_or_item items = true.
Proof.
  induction fuel as [|fuel IH]; intros req w.
  - exists OutOfFuel, req, (remote w), []. simpl. rewrite world_eta. auto.
  - rewrite Harvest_S.
    pose proof (Perform_world req w) as Hw.
    rewrite http_Get_world in Hw.
    destruct (Perform req w) as [[resp|e] w1]; cbn [snd] in Hw; subst w1.
    + destruct (fan_out_cases channels resp
                  {| remote := snd (serve (Request_String req) (remote w));
                     trace := trace w ++ [EvGet (Request_String req)] |})
        as (items & Hall & [E|E]); rewrite E; cbn [remote trace].
      * exists (Panicked ErrIndexOutOfRange), req,
          (snd (serve (Request_String req) (remote w))),
          (EvGet (Request_String req) :: items).
        cbn [closing forallb get_or_item andb].
        split; [|exact Hall]. f_equal. f_equal. f_equal. now list_norm.
      * destruct (Response_ResumptionToken (Some resp)) as [[|] tok];
          cbn [fst].
        -- destruct (IH (continuation_request tok req)
                        {| remote := snd (serve (Request_String req) (remote w));
                           trace := (trace w ++ [EvGet (Request_String req)])
                                    ++ items ++ [] |})
             as (c & r & rem & items' & E' & Hall').
           exists c, r, rem, (EvGet (Request_String req) :: items ++ items').
           rewrite E'. cbn [trace forallb get_or_item andb]. split.
           ++ f_equal. f_equal. f_equal. now list_norm.
           ++ rewrite forallb_app, Hall, Hall'. reflexivity.
        -- exists Returned, req,
             (snd (serve (Request_String req) (remote w))),
             (EvGet (Request_String req) :: items).
           cbn [closing forallb get_or_item andb].
           split; [|exact Hall]. f_equal. f_equal. f_equal. now list_norm.
    + exists (Panicked e), req,
        (snd (serve (Request_String req) (remote w))),
        [EvGet (Request_String req)].
      simpl. auto.
Qed.

End HarvestFacts.

(** ** Harvests against a scripted remote *)


Lemma get_targets_exchange (front : list Response) (last : Response) :
  forall req : Request,
    get_targets (exchange_trace req (front ++ [last]))
    = Request_String req
      :: map (fun p => Request_String (continuation_request (page_token p) req))
           front.
Proof.
  induction front as [|p front IH]; intros req; [reflexivity|].
  cbn [app exchange_trace]. unfold get_targets at 1. cbn [flat_map app].
  fold (get_targets
          (exchange_trace
             (continuation_request (snd (Response_ResumptionToken (Some p))) req)
             (front ++ [last]))).
  rewrite IH. reflexivity.
Qed.

Lemma observed_pages_exchange (pages : list Response) :
  forall req : Request, observed_pages (exchange_trace req pages) = pages.
Proof.
  induction pages as [|p pages IH]; intros req; [reflexivity|].
  cbn [exchange_trace]. unfold observed_pages at 1. cbn [flat_map app].
  fold (observed_pages
          (exchange_trace
             (continuation_request (snd (Response_ResumptionToken (Some p))) req)
             pages)).
  now rewrite IH.
Qed.

(** ** The theorems at work on the sample harvests *)

Lemma Harvest_continuation_request_witness :
  Request_String (continuation_request "1" sample_request)
  = "http://services.kb.nl/mdo/oai?verb=ListIdentifiers&resumptionToken=1".
Proof.
  exact (proj2 (proj2 (proj2 (proj2 (proj2 (proj2 (proj2
           (Harvest_continuation_request script scripted_serve sample_Unmarshal
              1 observe_page sample_request sample_world
              (snd (Request_Perform scripted_serve sample_Unmarshal
                      sample_request sample_world))
              (emit (EvPage page_one)
                 (snd (Request_Perform scripted_serve sample_Unmarshal
                         sample_request sample_world)))
              page_one "1" eq_refl eq_refl eq_refl)))))))).
Defined.

Lemma Harvest_error_envelope_witness :
  Request_Harvest scripted_serve (table_Unmarshal [error_page]) 1 observe_page
    sample_request (start_world [reply 200 x00])
  = (Returned,
     (sample_request,
      {| remote := [];
         trace := [EvGet (Request_String sample_request); EvPage error_page] |})).
Proof.
  exact (proj1 (proj2
           (Harvest_error_envelope script scripted_serve
              (table_Unmarshal [error_page]) 0 observe_page sample_request
              (start_world [reply 200 x00])
              {| remote := [];
                 trace := [EvGet (Request_String sample_request)] |}
              {| remote := [];
                 trace := [EvGet (Request_String sample_request);
                           EvPage error_page] |}
              error_page eq_refl eq_refl eq_refl eq_refl))).
Defined.

Lemma fan_out_round_robin_per_page_witness :
  [0; 1; 2] <> []
  /\ exists c r wb wi,
      Request_Harvest scripted_serve sample_Unmarshal 2 observe_page
        (assign_Verb "ListIdentifiers" kb_request) (start_world two_replies)
      = (c, (r, wb))
      /\ Request_ChannelHarvestIdentifiers scripted_serve sample_Unmarshal 2
           [0; 1; 2] kb_request (start_world two_replies) = (c, (r, wi))
      /\ remote wb = remote wi
      /\ trace wi = flat_map (expand_fan_out [0; 1; 2]) (trace wb).
Proof.
  split; [discriminate|].
  apply (fan_out_round_robin_per_page script scripted_serve sample_Unmarshal 2
           [0; 1; 2] kb_request two_replies).
  discriminate.
Defined.

(** The per-item harvests of the sample: GET, the items of the page in
    their order, GET, the items of the next page. *)
Example HarvestIdentifiers_sample :
  trace (snd (snd (Request_HarvestIdentifiers scripted_serve sample_Unmarshal 2
                     observe_header kb_request sample_world)))
  = [ EvGet "http://services.kb.nl/mdo/oai?verb=ListIdentifiers&set=DTS&metadataPrefix=dcx&from=2012-09-06T014:00:00.000Z";
      EvHeader (header_of "a"); EvHeader (header_of "b");
      EvHeader (header_of "c"); EvHeader (header_of "d");
      EvGet "http://services.kb.nl/mdo/oai?verb=ListIdentifiers&resumptionToken=1";
      EvHeader (header_of "e"); EvHeader (header_of "f");
      EvHeader (header_of "g") ].
Proof. reflexivity. Qed.

Example HarvestRecords_sample :
  trace (snd (snd (Request_HarvestRecords scripted_serve
                     (table_Unmarshal [records_page ["x"; "y"] "t";
                                       records_page ["z"] ""])
                     2 observe_record kb_request sample_world)))
  = [ EvGet "http://services.kb.nl/mdo/oai?verb=ListRecords&set=DTS&metadataPrefix=dcx&from=2012-09-06T014:00:00.000Z";
      EvRecord (record_of "x"); EvRecord (record_of "y");
      EvGet "http://services.kb.nl/mdo/oai?verb=ListRecords&resumptionToken=t";
      EvRecord (record_of "z") ].
Proof. reflexivity. Qed.

(** ** Where the code departs from the specification's wording *)

(** Three channels, seven items on pages of four and three: the fifth item
    goes to channel 0 again. *)
Example fan_out_4_3 :
  item_destinations
    (trace (snd (snd (Request_ChannelHarvestIdentifiers scripted_serve
                        sample_Unmarshal 2 [0; 1; 2] kb_request sample_world))))
  = [0; 1; 2; 0; 0; 1; 2].
Proof. reflexivity. Qed.

(** Three channels, seven items on pages of three and four: the first page
    ends where the round does, and the sends look cumulative. *)
Example fan_out_3_4 :
  item_destinations
    (trace (snd (snd (Request_ChannelHarvestIdentifiers scripted_serve
                        (table_Unmarshal pages_3_4) 2 [0; 1; 2] kb_request
                        sample_world))))
  = [0; 1; 2; 0; 1; 2; 0].
Proof. reflexivity. Qed.

(** The sentinels of that harvest: after the last item, one per channel. *)
Example fan_out_3_4_last_events :
  skipn 9
    (trace (snd (snd (Request_ChannelHarvestIdentifiers scripted_serve
                        (table_Unmarshal pages_3_4) 2 [0; 1; 2] kb_request
                        sample_world))))
  = [EvSend 0 None; EvSend 1 None; EvSend 2 None].
Proof. reflexivity. Qed.

(** No channel at all and a page with an item: the index is out of range. *)
Example fan_out_no_channel :
  fst (Request_ChannelHarvestIdentifiers scripted_serve sample_Unmarshal 2 []
         kb_request sample_world)
  = Panicked ErrIndexOutOfRange.
Proof. reflexivity. Qed.

(** The recursion cut short: no sentinel yet. *)
Example fan_out_cut_short :
  let run := Request_ChannelHarvestIdentifiers scripted_serve sample_Unmarshal 1
               [0; 1; 2] kb_request sample_world in
  fst run = OutOfFuel
  /\ forallb get_or_item (trace (snd (snd run))) = true.
Proof. split; reflexivity. Qed.

(** C3, as worded, fails: the positions do not count over the whole
    harvest. *)
Lemma fan_out_not_cumulative : ~ round_robin_is_cumulative.
Proof.
  intros H.
  specialize (H sample_Unmarshal two_replies 2 3 kb_request
                (fst (snd (Request_ChannelHarvestIdentifiers scripted_serve
                             sample_Unmarshal 2 (seq 0 3) kb_request
                             (start_world two_replies))))
                (snd (snd (Request_ChannelHarvestIdentifiers scripted_serve
                             sample_Unmarshal 2 (seq 0 3) kb_request
                             (start_world two_replies))))
                eq_refl).
  vm_compute in H. discriminate H.
Qed.

(** C6, as worded, fails: a reply with status 503 whose body decodes is
    returned by [Perform]. *)
Lemma status_is_not_inspected : ~ non_success_status_is_fatal.
Proof.
  intros H.
  destruct (H script scripted_serve (table_Unmarshal [error_page]) kb_request
              (start_world [reply 503 x00])
              {| HttpResponse_StatusCode := 503;
                 HttpResponse_Body := Some [x00] |})
    as [e He].
  - reflexivity.
  - simpl. lia.
  - vm_compute in He. discriminate He.
Qed.

Example Perform_status_503 :
  fst (Request_Perform scripted_serve (table_Unmarshal [error_page]) kb_request
         (start_world [reply 503 x00]))
  = inl error_page.
Proof. reflexivity. Qed.

(** * Further properties of the harvest *)

Section HarvestMore.

Variable Remote : Type.
Variable serve : string -> Remote -> option HttpResponse * Remote.
Variable xml_Unmarshal : list byte -> option Response.

Local Abbreviation Perform := (Request_Perform serve xml_Unmarshal).
Local Abbreviation Harvest := (Request_Harvest serve xml_Unmarshal).

(** ** What a harvest does to the request *)




(** ** The events of a page-observing harvest, whatever the remote *)

Lemma harvest_shape_cons (fuel : nat) (req : Request) (t0 : list event)
  (p : Response) (tok : string) (c : completion) (r : Request) (t : list event) :
  Response_ResumptionToken (Some p) = (true, tok) ->
  harvest_shape fuel (continuation_request tok req)
    ((t0 ++ [EvGet (Request_String req)]) ++ [EvPage p]) c r t ->
  harvest_shape (S fuel) req t0 c r t.
Proof.
  intros E H.
  assert (Hp : has_token p) by (unfold has_token; now rewrite E).
  assert (Htok : page_token p = tok) by (unfold page_token; now rewrite E).
  assert (Hsnd : snd (Response_ResumptionToken (Some p)) = tok) by now rewrite E.
  assert (Hreq : forall pages,
             final_request (p :: pages) req
             = final_request pages (continuation_request tok req)).
  { intros pages. unfold final_request. cbn [fold_left]. now rewrite Htok. }
  assert (Htr : forall pages,
             exchange_trace req (p :: pages)
             = EvGet (Request_String req) :: EvPage p
               :: exchange_trace (continuation_request tok req) pages).
  { intros pages. cbn [exchange_trace]. now rewrite Hsnd. }
  destruct c as [|e|]; cbn [harvest_shape] in H |- *.
  - destruct H as (front & last & Hf & Hl & Hlen & Hr & Ht).
    exists (p :: front), last.
    split; [constructor; auto|]. split; [exact Hl|].
    split; [cbn [length]; lia|]. split; [now rewrite Hreq|].
    rewrite Ht. change ((p :: front) ++ [last]) with (p :: (front ++ [last])).
    rewrite Htr. now list_norm.
  - destruct H as (pages & Hf & Hlen & He & Hr & Ht).
    exists (p :: pages).
    split; [constructor; auto|]. split; [cbn [length]; lia|].
    split; [exact He|]. split; [now rewrite Hreq|].
    rewrite Ht, Htr. now list_norm.
  - destruct H as (pages & Hf & Hlen & Hr & Ht).
    exists (p :: pages).
    split; [constructor; auto|]. split; [cbn [length]; lia|].
    split; [now rewrite Hreq|].
    rewrite Ht, Htr. now list_norm.
Qed.

Lemma Perform_error (req : Request) (w : World Remote) (e : error) :
  fst (Perform req w) = inr e ->
  e = ErrGet \/ e = ErrReadAll \/ e = ErrUnmarshal.
Proof.
  rewrite Perform_fst.
  destruct (fst (http_Get serve (Request_String req) w)) as [hr|];
    [|intros [= <-]; auto].
  destruct (HttpResponse_Body hr) as [body|]; [|intros [= <-]; auto].
  destruct (xml_Unmarshal body); [discriminate | intros [= <-]; auto].
Qed.

Lemma Harvest_observe_page_shape (fuel : nat) :
  forall (req : Request) (w : World Remote),
    harvest_shape fuel req (trace w)
      (fst (Harvest fuel observe_page req w))
      (fst (snd (Harvest fuel observe_page req w)))
      (trace (snd (snd (Harvest fuel observe_page req w)))).
Proof.
  induction fuel as [|fuel IH]; intros req w.
  - simpl. exists []. repeat split; auto. simpl. now rewrite app_nil_r.
  - rewrite Harvest_S.
    pose proof (Perform_world _ serve xml_Unmarshal req w) as Hw.
    rewrite http_Get_world in Hw.
    pose proof (Perform_error req w) as He.
    destruct (Perform req w) as [[p|e] w1]; cbn [fst snd] in Hw, He; subst w1.
    + unfold observe_page at 1. unfold emit. cbn [remote trace].
      destruct (Response_ResumptionToken (Some p)) as [[|] tok] eqn:E.
      * apply harvest_shape_cons with (p := p) (tok := tok); [exact E|].
        apply (IH (continuation_request tok req)
                 {| remote := snd (serve (Request_String req) (remote w));
                    trace := (trace w ++ [EvGet (Request_String req)])
                             ++ [EvPage p] |}).
      * cbn [fst snd trace harvest_shape].
        exists [], p. repeat split; auto.
        -- now rewrite E.
        -- simpl. lia.
        -- simpl. now list_norm.
    + cbn [fst snd trace harvest_shape].
      exists []. repeat split; auto. simpl. lia.
Qed.

Lemma get_targets_exchange_length (pages : list Response) :
  forall r : Request, length (get_targets (exchange_trace r pages)) = length pages.
Proof.
  induction pages as [|p pages IH]; intros r; [reflexivity|].
  cbn [exchange_trace]. unfold get_targets. cbn [flat_map app length].
  f_equal. apply IH.
Qed.

(** X1. Whatever the remote, the events a page-observing harvest adds are
    GET, page, GET, page, ...: every GET but a failing one is followed by
    the delivery of the page it fetched, and every delivered page but the
    last of a returning harvest carries a token.  A harvest that returns
    ends on a page without token; one that panics ends on the GET that
    failed, after pages that all carry a token; one that has not ended at
    depth [fuel] has delivered [fuel] pages with a token.  The final request
    is the continuation requests of the pages with a token, in turn. *)
Theorem Harvest_page_by_page (fuel : nat) (req : Request) (w : World Remote) :
  harvest_shape fuel req (trace w)
    (fst (Harvest fuel observe_page req w))
    (fst (snd (Harvest fuel observe_page req w)))
    (trace (snd (snd (Harvest fuel observe_page req w))))
  /\ forall (r : Request) (pages : list Response),
       length (get_targets (exchange_trace r pages)) = length pages
       /\ observed_pages (exchange_trace r pages) = pages.
Proof.
  split; [apply Harvest_observe_page_shape|].
  intros r pages. split;
    [apply get_targets_exchange_length | apply observed_pages_exchange].
Qed.

(** ** A callback that panics *)

Lemma range_call_panic {A : Type} (cb : callback_on Remote A) (xs : list A)
  (y : A) (zs : list A) (e : error) :
  forall w w2 w3 : World Remote,
    range_call cb xs w = (Returned, w2) ->
    cb y w2 = (Panicked e, w3) ->
    range_call cb (xs ++ y :: zs) w = (Panicked e, w3).
Proof.
  induction xs as [|x xs IH]; intros w w2 w3 Hxs Hy.
  - simpl in Hxs. injection Hxs as <-. simpl. now rewrite Hy.
  - simpl in Hxs |- *.
    destruct (cb x w) as [[|e'|] w1]; try discriminate.
    now apply IH with (w2 := w2).
Qed.

(** ** The fan-out beside the per-item harvest *)






Lemma observed_headers_map (hs : list Header) :
  observed_headers (map EvHeader hs) = hs.
Proof.
  induction hs as [|h hs IH]; [reflexivity|].
  unfold observed_headers. cbn [map flat_map app]. f_equal. exact IH.
Qed.






(** ** A remote that never stops *)





(** ** The sentinels, channel by channel *)

Lemma nil_count_app (ch : chan) (t1 t2 : list event) :
  nil_count ch (t1 ++ t2) = nil_count ch t1 + nil_count ch t2.
Proof.
  unfold nil_count. now rewrite filter_app, length_app.
Qed.

Lemma nil_count_items (ch : chan) (items : list event) :
  forallb get_or_item items = true -> nil_count ch items = 0.
Proof.
  induction items as [|e items IH]; intros Hall; [reflexivity|].
  cbn [forallb] in Hall. apply andb_true_iff in Hall as [He Hitems].
  change (e :: items) with ([e] ++ items).
  rewrite nil_count_app, (IH Hitems).
  destruct e as [| | | |c [h|]|]; try discriminate He; reflexivity.
Qed.

Lemma nil_count_sentinels (ch : chan) (channels : list chan) :
  nil_count ch (sentinels channels) = count_occ Nat.eq_dec channels ch.
Proof.
  induction channels as [|c channels IH]; [reflexivity|].
  change (sentinels (c :: channels))
    with ([EvSend c None] ++ sentinels channels).
  rewrite nil_count_app, IH. cbn [count_occ].
  unfold nil_count. cbn [filter].
  destruct (Nat.eqb_spec c ch) as [E|E];
    destruct (Nat.eq_dec c ch) as [E'|E']; try contradiction; reflexivity.
Qed.

(** X8. A fan-out harvest that returns has sent each channel as many nil
    sentinels as the channel has places in the collection: one when the
    channels are distinct, two to a channel passed twice, none to a channel
    that is not in the collection.  A harvest that panics or has not ended
    has sent no nil at all. *)
Theorem fan_out_nil_per_channel (fuel : nat) (channels : list chan)
  (req : Request) (r0 : Remote) (ch : chan) :
  let run := Request_ChannelHarvestIdentifiers serve xml_Unmarshal fuel channels
               req (start_world r0) in
  nil_count ch (trace (snd (snd run)))
  = match fst run with
    | Returned => count_occ Nat.eq_dec channels ch
    | _ => 0
    end.
Proof.
  cbv zeta. unfold Request_ChannelHarvestIdentifiers.
  destruct (Harvest_fan_out_trace _ serve xml_Unmarshal channels fuel
              (assign_Verb "ListIdentifiers" req) (start_world r0))
    as (c & r & rem & items & E & Hall).
  rewrite E. cbn [fst snd trace start_world app].
  rewrite nil_count_app, (nil_count_items ch items Hall).
  destruct c; cbn [closing]; [apply nil_count_sentinels | reflexivity..].
Qed.

End HarvestMore.

(** ** Values that are not escaped *)

Lemma append_assoc (a b c : string) : ((a ++ b) ++ c = a ++ b ++ c)%string.
Proof.
  induction a as [|x a IH]; [reflexivity|]. simpl. now rewrite IH.
Qed.

Lemma strings_Join_cons (e : string) (l : list string) (sep : string) :
  l <> [] ->
  strings_Join (e :: l) sep = (e ++ sep ++ strings_Join l sep)%string.
Proof.
  destruct l; [congruence | reflexivity].
Qed.

Lemma strings_Join_smuggle (a : list string) (x y : string) (b : list string) :
  strings_Join (a ++ (x ++ "&" ++ y)%string :: b) "&"
  = strings_Join (a ++ x :: y :: b) "&".
Proof.
  induction a as [|e a IH].
  - cbn [app]. rewrite (strings_Join_cons x) by discriminate.
    destruct b as [|c b]; [reflexivity|].
    rewrite !strings_Join_cons by discriminate.
    now rewrite !append_assoc.
  - cbn [app].
    rewrite !strings_Join_cons by (destruct a; discriminate).
    now rewrite IH.
Qed.

(** X9. Values go into the target as they are, so the target does not tell
    requests apart: an identifier that ends in [&from=f] gives the very
    target of the request with that identifier cut short and [f] as from. *)
Theorem Request_String_not_injective (req : Request) (i f : string) :
  i <> "" -> f <> "" ->
  let forged := assign_From "" (assign_Identifier (i ++ "&from=" ++ f) req) in
  let honest := assign_From f (assign_Identifier i req) in
  Request_String forged = Request_String honest /\ forged <> honest.
Proof.
  intros Hi Hf forged honest. split.
  - assert (Hqs : strings_Join (Request_qs forged) "&"
                  = strings_Join (Request_qs honest) "&").
    { unfold Request_qs. rewrite !add_filter.
      subst forged honest. cbn [assign_From assign_Identifier
        Request_Verb Request_Set Request_MetadataPrefix Request_ResumptionToken
        Request_Identifier Request_From Request_Until].
      assert (E1 : filter nonempty_value [("identifier", (i ++ "&from=" ++ f)%string)]
                   = [("identifier", (i ++ "&from=" ++ f)%string)]).
      { unfold nonempty_value. cbn [filter snd].
        destruct i; [congruence | reflexivity]. }
      assert (E2 : filter nonempty_value [("identifier", i)] = [("identifier", i)]).
      { unfold nonempty_value. cbn [filter snd].
        destruct i; [congruence | reflexivity]. }
      assert (E3 : filter nonempty_value [("from", f)] = [("from", f)]).
      { unfold nonempty_value. cbn [filter snd].
        destruct f; [congruence | reflexivity]. }
      assert (E4 : filter nonempty_value [("from", "")] = []) by reflexivity.
      rewrite E1, E2, E3, E4. cbn [map].
      set (tail := map pair_text
                     (filter nonempty_value [("until", Request_Until req)])).
      match goal with
      | |- strings_Join (((?P ++ _) ++ _) ++ _) _ = _ => set (head := P)
      end.
      rewrite app_nil_r, <- !app_assoc. cbn [app].
      rewrite <- strings_Join_smuggle.
      reflexivity. }
    unfold Request_String. rewrite Hqs. reflexivity.
  - intros E. apply (f_equal Request_From) in E. simpl in E.
    apply Hf. now symmetry.
Qed.

(** * Harvests against a scripted remote *)

Section Scripted.

Variable accepts : string -> bool.
Variable xml_Unmarshal : list byte -> option Response.

Local Abbreviation Perform :=
  (Request_Perform (scripted_serve_on accepts) xml_Unmarshal).
Local Abbreviation Harvest :=
  (Request_Harvest (scripted_serve_on accepts) xml_Unmarshal).

Lemma Perform_scripted (req : Request) (r : option HttpResponse) (rest : script)
  (t : list event) (p : Response) :
  accepts (Request_String req) = true ->
  reply_page xml_Unmarshal r = Some p ->
  Perform req {| remote := r :: rest; trace := t |}
  = (inl p, {| remote := rest; trace := t ++ [EvGet (Request_String req)] |}).
Proof.
  intros Ha H. unfold Request_Perform, http_Get, scripted_serve_on.
  cbn [remote trace]. rewrite Ha.
  destruct r as [hr|]; simpl in H; [|discriminate].
  destruct (HttpResponse_Body hr) as [body|]; [|discriminate].
  rewrite H. reflexivity.
Qed.

Lemma Perform_refused (req : Request) (s : script) (t : list event) :
  accepts (Request_String req) = false ->
  Perform req {| remote := s; trace := t |}
  = (inr ErrGet, {| remote := s; trace := t ++ [EvGet (Request_String req)] |}).
Proof.
  intros Ha. unfold Request_Perform, http_Get, scripted_serve_on.
  cbn [remote trace]. rewrite Ha. reflexivity.
Qed.

Lemma targets_accepted_split (front : list Response) :
  forall req : Request,
    targets_accepted accepts req front ->
    Forall (fun target => accepts target = true)
      (get_targets (exchange_trace req front))
    /\ accepts (Request_String (final_request front req)) = true.
Proof.
  induction front as [|p front IH]; intros req H.
  - inversion H; subst. split; [constructor | assumption].
  - unfold targets_accepted in H. cbn [map] in H.
    inversion H as [|? ? Hreq H']; subst.
    inversion H' as [|? ? Hp Hfront]; subst.
    destruct (IH (continuation_request (page_token p) req)) as [IH1 IH2].
    { constructor; [exact Hp | exact Hfront]. }
    split.
    + cbn [exchange_trace]. unfold get_targets. cbn [flat_map app].
      constructor; [exact Hreq | exact IH1].
    + exact IH2.
Qed.

Lemma delivery_trace_app (deliver : Response -> list event)
  (front rest : list Response) :
  forall req : Request,
    delivery_trace deliver req (front ++ rest)
    = delivery_trace deliver req front
      ++ delivery_trace deliver (final_request front req) rest.
Proof.
  induction front as [|p front IH]; intros req; [reflexivity|].
  cbn [app delivery_trace]. rewrite IH. unfold final_request.
  cbn [fold_left]. now list_norm.
Qed.

Lemma delivery_trace_ext (d1 d2 : Response -> list event) (pages : list Response) :
  Forall (fun p => d1 p = d2 p) pages ->
  forall req : Request, delivery_trace d1 req pages = delivery_trace d2 req pages.
Proof.
  induction 1 as [|p pages Hp _ IH]; intros req; [reflexivity|].
  cbn [delivery_trace]. now rewrite Hp, IH.
Qed.

Lemma exchange_trace_delivery (pages : list Response) :
  forall req : Request,
    exchange_trace req pages = delivery_trace page_event req pages.
Proof.
  induction pages as [|p pages IH]; intros req; [reflexivity|].
  cbn [exchange_trace delivery_trace page_event app]. unfold page_token.
  now rewrite IH.
Qed.

(** The pages [front], each with a token and each taken by the callback,
    are harvested one after the other; the harvest goes on from there. *)
Lemma Harvest_scripted_prefix (cb : callback_on script Response)
  (deliver : Response -> list event) (front : list Response) :
  Forall has_token front ->
  Forall (fun p => forall w : World script,
            cb p w = (Returned,
                      {| remote := remote w; trace := trace w ++ deliver p |}))
    front ->
  forall (sfront srest : script) (req : Request) (fuel : nat) (t : list event),
    map (reply_page xml_Unmarshal) sfront = map Some front ->
    Forall (fun target => accepts target = true)
      (get_targets (exchange_trace req front)) ->
    Harvest (length front + fuel) cb req
      {| remote := sfront ++ srest; trace := t |}
    = Harvest fuel cb (final_request front req)
        {| remote := srest; trace := t ++ delivery_trace deliver req front |}.
Proof.
  intros Htok Hcb. revert Hcb.
  induction Htok as [|p front Hp Htok IH]; intros Hcb sfront srest req fuel t Hs Ha.
  - destruct sfront; [|discriminate]. cbn. now rewrite app_nil_r.
  - inversion Hcb as [|? ? Hcbp Hcb']; subst.
    destruct sfront as [|r sfront]; [discriminate|].
    cbn [map] in Hs. injection Hs as Hr Hs.
    cbn [exchange_trace] in Ha. unfold get_targets in Ha.
    cbn [flat_map app] in Ha. apply Forall_cons_iff in Ha as [Hreq Ha'].
    fold (get_targets
            (exchange_trace
               (continuation_request (snd (Response_ResumptionToken (Some p))) req)
               front)) in Ha'.
    cbn [length Nat.add app]. rewrite Harvest_S.
    rewrite (Perform_scripted req r (sfront ++ srest) t p Hreq Hr).
    rewrite Hcbp. cbn [remote trace].
    unfold has_token in Hp.
    destruct (Response_ResumptionToken (Some p)) as [has tok] eqn:E.
    simpl in Hp. subst has.
    assert (Etok : page_token p = tok) by (unfold page_token; now rewrite E).
    cbn [snd] in Ha'.
    rewrite (IH Hcb' sfront srest (continuation_request tok req) fuel _ Hs Ha').
    unfold final_request. cbn [fold_left delivery_trace]. rewrite Etok.
    f_equal. f_equal. now list_norm.
Qed.

(** A whole harvest: the pages [front] with a token, then [last] without. *)
Lemma Harvest_scripted_pages (cb : callback_on script Response)
  (deliver : Response -> list event) (front : list Response) (last : Response)
  (s : script) (req : Request) (fuel : nat) (t : list event) :
  map (reply_page xml_Unmarshal) s = map Some (front ++ [last]) ->
  Forall has_token front ->
  fst (Response_ResumptionToken (Some last)) = false ->
  (forall p (w : World script),
      cb p w = (Returned, {| remote := remote w; trace := trace w ++ deliver p |})) ->
  targets_accepted accepts req front ->
  length front < fuel ->
  Harvest fuel cb req {| remote := s; trace := t |}
  = (Returned,
     (final_request front req,
      {| remote := [];
         trace := t ++ delivery_trace deliver req (front ++ [last]) |})).
Proof.
  intros Hs Htok Hlast Hcb Hacc Hfuel.
  rewrite map_app in Hs. apply map_eq_app in Hs.
  destruct Hs as (sfront & slast & -> & Hsf & Hsl).
  destruct slast as [|r [|? ?]]; try discriminate. injection Hsl as Hr.
  destruct (targets_accepted_split front req Hacc) as [Hacc1 Hacc2].
  replace fuel with (length front + S (fuel - length front - 1)) by lia.
  rewrite (Harvest_scripted_prefix cb deliver front Htok) with (req := req);
    [|apply Forall_forall; intros p _; apply Hcb | exact Hsf | exact Hacc1].
  rewrite Harvest_S.
  rewrite (Perform_scripted _ r [] _ last Hacc2 Hr), Hcb. cbn [remote trace].
  destruct (Response_ResumptionToken (Some last)) as [has tok].
  simpl in Hlast. subst has.
  rewrite delivery_trace_app. cbn [delivery_trace]. f_equal. f_equal. f_equal.
  now list_norm.
Qed.

Lemma observed_headers_delivery (pages : list Response) :
  forall req : Request,
    observed_headers (delivery_trace header_events req pages)
    = flat_map (fun p => ListIdentifiers_Headers (Response_ListIdentifiers p))
        pages.
Proof.
  induction pages as [|p pages IH]; intros req; [reflexivity|].
  cbn [delivery_trace flat_map]. unfold observed_headers.
  cbn [flat_map app]. rewrite flat_map_app. f_equal; [|apply IH].
  apply observed_headers_map.
Qed.

Lemma observed_records_delivery (pages : list Response) :
  forall req : Request,
    observed_records (delivery_trace record_events req pages)
    = flat_map (fun p => ListRecords_Records (Response_ListRecords p)) pages.
Proof.
  induction pages as [|p pages IH]; intros req; [reflexivity|].
  cbn [delivery_trace flat_map]. unfold observed_records.
  cbn [flat_map app]. rewrite flat_map_app. f_equal; [|apply IH].
  unfold record_events.
  induction (ListRecords_Records (Response_ListRecords p)) as [|r rs IHr];
    [reflexivity|].
  cbn [map flat_map app]. f_equal. exact IHr.
Qed.

Lemma item_sends_get_or_item (channels : list chan) (hs : list Header) :
  forall k, forallb get_or_item (item_sends channels k hs) = true.
Proof.
  induction hs as [|h hs IH]; intros k; [reflexivity|].
  cbn [item_sends forallb get_or_item andb]. apply IH.
Qed.

Lemma delivery_items_get_or_item (channels : list chan) (pages : list Response) :
  forall req : Request,
    forallb get_or_item (delivery_trace (item_events channels) req pages) = true.
Proof.
  induction pages as [|p pages IH]; intros req; [reflexivity|].
  cbn [delivery_trace forallb get_or_item andb].
  rewrite forallb_app, IH. unfold item_events.
  now rewrite item_sends_get_or_item.
Qed.

Lemma range_call_panic_when (bad : Header -> bool) (e : error) (hs : list Header) :
  existsb bad hs = false ->
  forall w : World script,
    range_call (panic_when bad e) hs w
    = (Returned, {| remote := remote w; trace := trace w ++ map EvHeader hs |}).
Proof.
  induction hs as [|h hs IH]; intros Hbad w.
  - simpl. now rewrite world_eta.
  - cbn [existsb] in Hbad. apply orb_false_iff in Hbad as [Hh Hhs].
    cbn [range_call]. unfold panic_when at 1. rewrite Hh.
    unfold observe_header. rewrite (IH Hhs). unfold emit. cbn [remote trace map].
    now list_norm.
Qed.

End Scripted.

(** C1 (amended). Against a remote that answers n GETs with n pages, all
    but the last with a token and the last without, and when [http.Get]
    accepts the target of the request and of the continuation request of
    each token, a page-observing harvest with at least n levels of
    recursion returns after exactly n GETs and n calls of the callback, one
    per page and in their order; the first GET carries the request as
    given and the GET after page k carries the token of page k as
    resumptionToken.  With a single page without token there is one GET
    and one call of the callback, and the request is left as it was. *)
Theorem Harvest_one_call_per_page (accepts : string -> bool)
  (xml_Unmarshal : list byte -> option Response)
  (front : list Response) (last : Response) (s : script) (req : Request)
  (fuel : nat) :
  map (reply_page xml_Unmarshal) s = map Some (front ++ [last]) ->
  Forall has_token front ->
  fst (Response_ResumptionToken (Some last)) = false ->
  targets_accepted accepts req front ->
  length front < fuel ->
  exists (req' : Request) (t : list event),
    Request_Harvest (scripted_serve_on accepts) xml_Unmarshal fuel observe_page
      req (start_world s)
    = (Returned, (req', {| remote := []; trace := t |}))
    /\ t = exchange_trace req (front ++ [last])
    /\ length (get_targets t) = length (front ++ [last])
    /\ get_targets t
       = Request_String req
         :: map (fun p => Request_String (continuation_request (page_token p) req))
              front
    /\ (forall p, Request_ResumptionToken (continuation_request (page_token p) req)
                  = page_token p)
    /\ observed_pages t = front ++ [last]
    /\ (front = [] -> t = [EvGet (Request_String req); EvPage last] /\ req' = req).
Proof.
  intros Hs Hfront Hlast Hacc Hfuel.
  exists (final_request front req), (exchange_trace req (front ++ [last])).
  split.
  - unfold start_world.
    rewrite (Harvest_scripted_pages accepts xml_Unmarshal observe_page page_event
               front last s req fuel [] Hs Hfront Hlast
               (fun p w => eq_refl) Hacc Hfuel).
    cbn [app]. now rewrite exchange_trace_delivery.
  - split; [reflexivity|]. split.
    + rewrite get_targets_exchange. simpl.
      rewrite length_map, length_app. simpl. lia.
    + split; [apply get_targets_exchange|].
      split; [reflexivity|].
      split; [apply observed_pages_exchange|].
      intros ->. split; reflexivity.
Qed.

(** C9. Against any remote, a per-item harvest, of identifiers or of
    records, ends as the page-observing harvest of the same request does,
    whose events are GET, page, GET, page, ..., and its trace is that trace
    with each page replaced, where it stands, by the items of the page in
    their order.  Against a remote that answers n GETs with n pages, all but
    the last with a token, the harvest returns with the events GET, the
    items of page 1 in their order, GET, the items of page 2, and so on:
    every item of every page once, the items of a page before the next
    GET. *)
Theorem HarvestItems_in_wire_order :
  (forall (Remote : Type)
          (serve : string -> Remote -> option HttpResponse * Remote)
          (xml_Unmarshal : list byte -> option Response)
          (fuel : nat) (req : Request) (r0 : Remote),
      (exists c r wb wi,
          Request_Harvest serve xml_Unmarshal fuel observe_page
            (assign_Verb "ListIdentifiers" req) (start_world r0) = (c, (r, wb))
          /\ Request_HarvestIdentifiers serve xml_Unmarshal fuel observe_header
               req (start_world r0) = (c, (r, wi))
          /\ remote wb = remote wi
          /\ trace wi = flat_map expand_headers (trace wb)
          /\ harvest_shape fuel (assign_Verb "ListIdentifiers" req) [] c r
               (trace wb))
      /\ (exists c r wb wi,
          Request_Harvest serve xml_Unmarshal fuel observe_page
            (assign_Verb "ListRecords" req) (start_world r0) = (c, (r, wb))
          /\ Request_HarvestRecords serve xml_Unmarshal fuel observe_record
               req (start_world r0) = (c, (r, wi))
          /\ remote wb = remote wi
          /\ trace wi = flat_map expand_records (trace wb)
          /\ harvest_shape fuel (assign_Verb "ListRecords" req) [] c r
               (trace wb)))
  /\ (forall (accepts : string -> bool)
             (xml_Unmarshal : list byte -> option Response)
             (front : list Response) (last : Response) (s : script)
             (req : Request) (fuel : nat),
      map (reply_page xml_Unmarshal) s = map Some (front ++ [last]) ->
      Forall has_token front ->
      fst (Response_ResumptionToken (Some last)) = false ->
      length front < fuel ->
      (targets_accepted accepts (assign_Verb "ListIdentifiers" req) front ->
       Request_HarvestIdentifiers (scripted_serve_on accepts) xml_Unmarshal fuel
         observe_header req (start_world s)
       = (Returned,
          (final_request front (assign_Verb "ListIdentifiers" req),
           {| remote := [];
              trace := delivery_trace header_events
                         (assign_Verb "ListIdentifiers" req) (front ++ [last]) |}))
       /\ observed_headers
            (delivery_trace header_events (assign_Verb "ListIdentifiers" req)
               (front ++ [last]))
          = flat_map (fun p => ListIdentifiers_Headers (Response_ListIdentifiers p))
              (front ++ [last]))
      /\ (targets_accepted accepts (assign_Verb "ListRecords" req) front ->
          Request_HarvestRecords (scripted_serve_on accepts) xml_Unmarshal fuel
            observe_record req (start_world s)
          = (Returned,
             (final_request front (assign_Verb "ListRecords" req),
              {| remote := [];
                 trace := delivery_trace record_events
                            (assign_Verb "ListRecords" req) (front ++ [last]) |}))
          /\ observed_records
               (delivery_trace record_events (assign_Verb "ListRecords" req)
                  (front ++ [last]))
             = flat_map (fun p => ListRecords_Records (Response_ListRecords p))
                 (front ++ [last]))).
Proof.
  split.
  - intros Remote serve xml_Unmarshal fuel req r0. split.
    + destruct (HarvestIdentifiers_expands Remote serve xml_Unmarshal fuel req r0)
        as (c & r & wb & wi & Hb & Hi & Hr & Ht).
      exists c, r, wb, wi. repeat (split; [assumption|]).
      pose proof (Harvest_observe_page_shape Remote serve xml_Unmarshal fuel
                    (assign_Verb "ListIdentifiers" req) (start_world r0)) as H.
      rewrite Hb in H. exact H.
    + destruct (HarvestRecords_expands Remote serve xml_Unmarshal fuel req r0)
        as (c & r & wb & wi & Hb & Hi & Hr & Ht).
      exists c, r, wb, wi. repeat (split; [assumption|]).
      pose proof (Harvest_observe_page_shape Remote serve xml_Unmarshal fuel
                    (assign_Verb "ListRecords" req) (start_world r0)) as H.
      rewrite Hb in H. exact H.
  - intros accepts xml_Unmarshal front last s req fuel Hs Hfront Hlast Hfuel.
    split; intros Hacc.
    + split; [|apply observed_headers_delivery].
      unfold Request_HarvestIdentifiers, start_world.
      rewrite (Harvest_scripted_pages accepts xml_Unmarshal _ header_events
                 front last s _ fuel [] Hs Hfront Hlast
                 (fun p w => range_call_observe_header script
                               (ListIdentifiers_Headers (Response_ListIdentifiers p))
                               w)
                 Hacc Hfuel).
      reflexivity.
    + split; [|apply observed_records_delivery].
      unfold Request_HarvestRecords, start_world.
      rewrite (Harvest_scripted_pages accepts xml_Unmarshal _ record_events
                 front last s _ fuel [] Hs Hfront Hlast
                 (fun p w => range_call_observe_record script
                               (ListRecords_Records (Response_ListRecords p)) w)
                 Hacc Hfuel).
      reflexivity.
Qed.

(** C8. Whatever the channels and the remote, the trace a fan-out harvest
    adds is a run of GETs and sends of real items followed, when the harvest
    returns, by one nil sentinel for each channel of the collection in the
    order of the collection, and by nothing when it panics or has not ended:
    no sentinel comes before a real item, and no channel is closed.  With at
    least one channel the page callback always returns, having sent the
    items of the page and, exactly when the page carries no token, one nil
    to every channel after them.  Against a remote that answers n GETs with
    n pages, all but the last with a token, the harvest over at least one
    channel returns, and its trace is the GETs and the item sends of the n
    pages followed by the sentinels, each channel once. *)
Theorem fan_out_sentinels :
  (forall (Remote : Type)
          (serve : string -> Remote -> option HttpResponse * Remote)
          (xml_Unmarshal : list byte -> option Response)
          (fuel : nat) (channels : list chan) (req : Request) (w : World Remote),
      (exists c r rem items,
          Request_ChannelHarvestIdentifiers serve xml_Unmarshal fuel channels req w
          = (c, (r, {| remote := rem;
                       trace := trace w ++ items ++ closing c channels |}))
          /\ forallb get_or_item items = true)
      /\ (forall (resp : Response) (w' : World Remote),
            exists items,
              forallb get_or_item items = true
              /\ (fan_out channels resp w'
                  = (Panicked ErrIndexOutOfRange,
                     {| remote := remote w'; trace := trace w' ++ items |})
                  \/ fan_out channels resp w'
                     = (Returned,
                        {| remote := remote w';
                           trace := trace w' ++ items
                                    ++ (if fst (Response_ResumptionToken (Some resp))
                                        then [] else sentinels channels) |})))
      /\ (channels <> [] ->
          forall (resp : Response) (w' : World Remote),
            fan_out channels resp w'
            = (Returned,
               {| remote := remote w';
                  trace := trace w' ++ item_events channels resp
                           ++ (if fst (Response_ResumptionToken (Some resp))
                               then [] else sentinels channels) |})))
  /\ (forall (accepts : string -> bool)
             (xml_Unmarshal : list byte -> option Response)
             (channels : list chan) (front : list Response) (last : Response)
             (s : script) (req : Request) (fuel : nat),
      channels <> [] ->
      map (reply_page xml_Unmarshal) s = map Some (front ++ [last]) ->
      Forall has_token front ->
      fst (Response_ResumptionToken (Some last)) = false ->
      targets_accepted accepts (assign_Verb "ListIdentifiers" req) front ->
      length front < fuel ->
      Request_ChannelHarvestIdentifiers (scripted_serve_on accepts) xml_Unmarshal
        fuel channels req (start_world s)
      = (Returned,
         (final_request front (assign_Verb "ListIdentifiers" req),
          {| remote := [];
             trace := delivery_trace (item_events channels)
                        (assign_Verb "ListIdentifiers" req) (front ++ [last])
                      ++ sentinels channels |}))
      /\ forallb get_or_item
           (delivery_trace (item_events channels)
              (assign_Verb "ListIdentifiers" req) (front ++ [last])) = true).
Proof.
  split.
  - intros Remote serve xml_Unmarshal fuel channels req w.
    split; [|split].
    + unfold Request_ChannelHarvestIdentifiers. apply Harvest_fan_out_trace.
    + intros resp w'. apply fan_out_cases.
    + intros Hne resp w'. now apply fan_out_page.
  - intros accepts xml_Unmarshal channels front last s req fuel
           Hne Hs Hfront Hlast Hacc Hfuel.
    split; [|apply delivery_items_get_or_item].
    unfold Request_ChannelHarvestIdentifiers, start_world.
    rewrite (Harvest_scripted_pages accepts xml_Unmarshal (fan_out channels)
               (page_sends channels) front last s _ fuel [] Hs Hfront Hlast
               (fun p w => fan_out_page script channels p w Hne) Hacc Hfuel).
    f_equal. f_equal. f_equal. cbn [app].
    rewrite !delivery_trace_app.
    rewrite (delivery_trace_ext (page_sends channels) (item_events channels) front).
    + cbn [delivery_trace]. unfold page_sends at 1. rewrite Hlast.
      unfold item_events at 2. now list_norm.
    + apply Forall_forall. intros p Hp.
      rewrite Forall_forall in Hfront. specialize (Hfront p Hp).
      unfold has_token in Hfront. unfold page_sends, item_events.
      rewrite Hfront. now rewrite app_nil_r.
Qed.

(** X6. When the item callback panics on an item of a page, the first page
    or a later one, the harvest of identifiers ends with that panic: the
    items of the pages before and the items of that page before the one it
    panics on have been delivered in their order, the items after it are
    not delivered, the remote is asked for no further page, and the request
    is left as the continuation request that fetched that page. *)
Theorem HarvestIdentifiers_callback_panic (accepts : string -> bool)
  (xml_Unmarshal : list byte -> option Response) (bad : Header -> bool)
  (e : error) (front : list Response) (p : Response) (sfront : script)
  (sp : option HttpResponse) (srest : script) (req : Request) (fuel : nat)
  (xs : list Header) (y : Header) (zs : list Header) :
  map (reply_page xml_Unmarshal) sfront = map Some front ->
  reply_page xml_Unmarshal sp = Some p ->
  Forall has_token front ->
  Forall (fun q => existsb bad (ListIdentifiers_Headers (Response_ListIdentifiers q))
                   = false) front ->
  ListIdentifiers_Headers (Response_ListIdentifiers p) = xs ++ y :: zs ->
  existsb bad xs = false ->
  bad y = true ->
  targets_accepted accepts (assign_Verb "ListIdentifiers" req) front ->
  length front < fuel ->
  Request_HarvestIdentifiers (scripted_serve_on accepts) xml_Unmarshal fuel
    (panic_when bad e) req (start_world (sfront ++ sp :: srest))
  = (Panicked e,
     (final_request front (assign_Verb "ListIdentifiers" req),
      {| remote := srest;
         trace := delivery_trace header_events
                    (assign_Verb "ListIdentifiers" req) front
                  ++ EvGet (Request_String
                              (final_request front
                                 (assign_Verb "ListIdentifiers" req)))
                     :: map EvHeader xs |})).
Proof.
  intros Hsf Hsp Htok Hgood Hhs Hxs Hy Hacc Hfuel.
  destruct (targets_accepted_split accepts front _ Hacc) as [Hacc1 Hacc2].
  unfold Request_HarvestIdentifiers, start_world.
  replace fuel with (length front + S (fuel - length front - 1)) by lia.
  rewrite (Harvest_scripted_prefix accepts xml_Unmarshal _ header_events front
             Htok) with (req := assign_Verb "ListIdentifiers" req);
    [| | exact Hsf | exact Hacc1].
  - rewrite Harvest_S.
    rewrite (Perform_scripted accepts xml_Unmarshal _ sp srest _ p Hacc2 Hsp).
    rewrite Hhs.
    rewrite (range_call_panic script (panic_when bad e) xs y zs e _
               {| remote := srest;
                  trace := (([] ++ delivery_trace header_events
                                     (assign_Verb "ListIdentifiers" req) front)
                            ++ [EvGet (Request_String
                                         (final_request front
                                            (assign_Verb "ListIdentifiers" req)))])
                           ++ map EvHeader xs |}
               {| remote := srest;
                  trace := (([] ++ delivery_trace header_events
                                     (assign_Verb "ListIdentifiers" req) front)
                            ++ [EvGet (Request_String
                                         (final_request front
                                            (assign_Verb "ListIdentifiers" req)))])
                           ++ map EvHeader xs |}).
    + f_equal. f_equal. f_equal. now list_norm.
    + now rewrite range_call_panic_when.
    + unfold panic_when. now rewrite Hy.
  - apply Forall_forall. intros q Hq w.
    rewrite Forall_forall in Hgood.
    now rewrite range_call_panic_when by (apply Hgood; exact Hq).
Qed.

(** ** The further theorems at work on the sample harvests *)

Lemma Request_String_not_injective_witness :
  Request_String
    (assign_From "" (assign_Identifier "oai:x&from=2012" sample_request))
  = Request_String
      (assign_From "2012" (assign_Identifier "oai:x" sample_request)).
Proof.
  apply (Request_String_not_injective sample_request "oai:x" "2012");
    discriminate.
Defined.

(** Two places for one channel: two nils. *)
Example fan_out_same_channel_twice :
  nil_count 7
    (trace (snd (snd (Request_ChannelHarvestIdentifiers scripted_serve
                        sample_Unmarshal 2 [7; 7] kb_request sample_world))))
  = 2.
Proof. reflexivity. Qed.

Lemma Harvest_one_call_per_page_witness :
  exists (req' : Request) (t : list event),
    Request_Harvest scripted_serve sample_Unmarshal 2 observe_page sample_request
      (start_world two_replies)
    = (Returned, (req', {| remote := []; trace := t |}))
    /\ length (get_targets t) = 2
    /\ observed_pages t = [page_one; page_two].
Proof.
  destruct (Harvest_one_call_per_page
              (fun target => negb (stringContainsCTLByte target))
              sample_Unmarshal [page_one] page_two two_replies sample_request 2)
    as (req' & t & Hrun & _ & Hlen & _ & _ & Hpages & _).
  - reflexivity.
  - constructor; [reflexivity | constructor].
  - reflexivity.
  - repeat constructor.
  - simpl. lia.
  - exists req', t. split; [exact Hrun|]. split; [exact Hlen | exact Hpages].
Defined.

(** A token with a line feed: the second GET is refused, and the harvest
    panics after one page. *)
Example Harvest_line_feed :
  let run := Request_Harvest scripted_serve
               (table_Unmarshal [page_line_feed; page_two]) 2 observe_page
               sample_request (start_world two_replies) in
  fst run = Panicked ErrGet
  /\ observed_pages (trace (snd (snd run))) = [page_line_feed]
  /\ remote (snd (snd run)) = [reply 200 x01].
Proof. repeat split. Qed.

(** C1, as worded, fails: a non-empty token need not give a target that
    [http.Get] accepts. *)
Lemma line_feed_token_stops_harvest : ~ every_token_sequence_is_harvested.
Proof.
  intros H.
  destruct (H (table_Unmarshal [page_line_feed; page_two]) [page_line_feed]
              page_two two_replies sample_request 2)
    as (req' & t & Hrun & _).
  - reflexivity.
  - constructor; [reflexivity | constructor].
  - reflexivity.
  - simpl. lia.
  - vm_compute in Hrun. discriminate Hrun.
Qed.

Lemma HarvestItems_in_wire_order_witness :
  Request_HarvestIdentifiers scripted_serve sample_Unmarshal 2 observe_header
    kb_request (start_world two_replies)
  = (Returned,
     (final_request [page_one] sample_request,
      {| remote := [];
         trace := delivery_trace header_events sample_request
                    [page_one; page_two] |})).
Proof.
  apply (proj2 HarvestItems_in_wire_order
           (fun target => negb (stringContainsCTLByte target))
           sample_Unmarshal [page_one] page_two two_replies kb_request 2).
  - reflexivity.
  - constructor; [reflexivity | constructor].
  - reflexivity.
  - simpl. lia.
  - repeat constructor.
Defined.

Lemma fan_out_sentinels_witness :
  Request_ChannelHarvestIdentifiers scripted_serve sample_Unmarshal 2 [0; 1; 2]
    kb_request (start_world two_replies)
  = (Returned,
     (final_request [page_one] sample_request,
      {| remote := [];
         trace := delivery_trace (item_events [0; 1; 2]) sample_request
                    [page_one; page_two]
                  ++ sentinels [0; 1; 2] |})).
Proof.
  apply (proj2 fan_out_sentinels
           (fun target => negb (stringContainsCTLByte target))
           sample_Unmarshal [0; 1; 2] [page_one] page_two two_replies
           kb_request 2).
  - discriminate.
  - reflexivity.
  - constructor; [reflexivity | constructor].
  - reflexivity.
  - repeat constructor.
  - simpl. lia.
Defined.


(** The callback panics on the header "f", the second of the second page. *)
Lemma HarvestIdentifiers_callback_panic_witness :
  Request_HarvestIdentifiers scripted_serve sample_Unmarshal 2
    (panic_when (has_identifier "f") ErrCallback) kb_request
    (start_world two_replies)
  = (Panicked ErrCallback,
     (continuation_request "1" sample_request,
      {| remote := [];
         trace := [EvGet (Request_String sample_request);
                   EvHeader (header_of "a"); EvHeader (header_of "b");
                   EvHeader (header_of "c"); EvHeader (header_of "d");
                   EvGet (Request_String (continuation_request "1" sample_request));
                   EvHeader (header_of "e")] |})).
Proof.
  apply (HarvestIdentifiers_callback_panic
           (fun target => negb (stringContainsCTLByte target))
           sample_Unmarshal (has_identifier "f") ErrCallback
           [page_one] page_two [reply 200 x00] (reply 200 x01) []
           kb_request 2 [header_of "e"] (header_of "f") [header_of "g"]).
  - reflexivity.
  - reflexivity.
  - constructor; [reflexivity | constructor].
  - constructor; [reflexivity | constructor].
  - reflexivity.
  - reflexivity.
  - reflexivity.
  - repeat constructor.
  - simpl. lia.
Defined.

